(** * Historic_Crypto: the historical-data retrieval engine

    A shallow embedding of [HistoricalData] (src/HistoricalData.py): the
    constructor's range check, the ticker check, the window planner, the
    chunk loop and the assembly of the returned frame, followed by the
    properties of the specification that these definitions decide; then
    [_date_cleaner], [Cryptocurrencies.find_crypto_pairs]
    (src/Cryptocurrencies.py) and [LiveCryptoData.return_data]
    (src/LiveCryptoData.py) with properties of their own.

    Conventions of the embedding.
    - A [datetime] is the number of seconds since the epoch, as an integer;
      a date string ['%Y-%m-%d-%H-%M'] is represented by the instant that
      [strptime] yields for it (format errors of [strptime] are outside the
      model).  The local time zone is taken to be UTC, so that
      [start.timestamp()], the naive datetimes and the instants produced by
      [pd.to_datetime(..., unit='s')] live on one axis.
    - The remote API is a state machine [serve] that answers one request at
      a time; every exchange is appended to a trace.  A response is taken
      as decoded: its status code, the product ids of the catalog and the
      candle rows, each row with its six fields; transport failures inside
      [requests.get] and bodies of another shape are outside the model.
    - [sort_index] is modelled by a sort that keeps rows of equal timestamp
      in their order, as the default sort of pandas does on small frames;
      the order pandas leaves among rows of one timestamp in a larger frame
      is not described.  [drop_duplicates] compares the value columns only,
      the index taking no part, as pandas documents it.
    - Instants outside the range of [pd.Timestamp], for which
      [pd.date_range] raises, are outside the model ([representable]).
    - Printing, [_date_cleaner] (whose results are stored and never read)
      and [time.sleep(randint(0, 2))] have no effect on requests or results
      and are left out. *)

From Stdlib Require Import String.
From Stdlib Require Import ZArith List Bool Lia Sorted.
From Stdlib Require Import DecimalString.
Import ListNotations.
Open Scope Z_scope.

(** ** Data model *)

(** GRANULARITIES: seconds to the API's symbolic name. *)
Definition GRANULARITIES (seconds : Z) : option string :=
  if seconds =? 60 then Some "ONE_MINUTE"%string
  else if seconds =? 300 then Some "FIVE_MINUTE"%string
  else if seconds =? 900 then Some "FIFTEEN_MINUTE"%string
  else if seconds =? 1800 then Some "THIRTY_MINUTE"%string
  else if seconds =? 3600 then Some "ONE_HOUR"%string
  else if seconds =? 7200 then Some "TWO_HOUR"%string
  else if seconds =? 21600 then Some "SIX_HOUR"%string
  else if seconds =? 86400 then Some "ONE_DAY"%string
  else None.

(** One row of a candle frame: the [time] column and the five value
    columns, the latter of type [A] (parsed JSON scalars, or floats after
    [astype(float)]). *)
Record candle (A : Type) : Type := Candle {
  time : Z;
  low : A;
  high : A;
  open : A;
  close : A;
  volume : A
}.
Arguments Candle {A} _ _ _ _ _ _.
Arguments time {A} _.
Arguments low {A} _.
Arguments high {A} _.
Arguments open {A} _.
Arguments close {A} _.
Arguments volume {A} _.

(** The columns other than the index, as [drop_duplicates] compares them. *)
Definition values {A : Type} (c : candle A) : A * A * A * A * A :=
  (low c, high c, open c, close c, volume c).

(** How an instant is written into a URL: [int(start.timestamp())] on the
    single-request path, [str(datetime)] on the chunked path. *)
Inductive stamp : Type :=
| Unix (t : Z)
| Text (t : Z).

Definition instant (s : stamp) : Z :=
  match s with Unix t => t | Text t => t end.

Inductive request : Type :=
| GetProducts
| GetCandles (ticker : string) (start end_ : stamp) (granularity : string) (limit : Z).

Definition is_candles (r : request) : bool :=
  match r with GetCandles _ _ _ _ _ => true | GetProducts => false end.

(** The sub-window a candles request asks for. *)
Definition window (r : request) : Z * Z :=
  match r with
  | GetCandles _ s e _ _ => (instant s, instant e)
  | GetProducts => (0, 0)
  end.

Definition limit_of (r : request) : Z :=
  match r with
  | GetCandles _ _ _ _ l => l
  | GetProducts => 0
  end.

Inductive value_error : Type :=
| BadGranularity      (* 'granularity' argument must be one of ... *)
| EndBeforeStart      (* 'end_date' argument cannot occur prior to the start_date *)
| TickerNotAvailable  (* Ticker not available through CoinBase Pro API *)
| LengthMismatch      (* data.columns = [...] on a frame without six columns *)
| NotNumeric.         (* astype(float) on a value that is no number *)

Inductive exn : Type :=
| ValueError (why : value_error)
| KeyError
| ReError                 (* re.error: a text that is no regular expression *)
| HTTPError (status : Z)
| ConnectionError (status : Z)
| RequestException (status : Z).

Record HistoricalData : Type := {
  ticker : string;
  granularity : Z;
  start_date : Z;
  end_date : Z;
  verbose : bool
}.

(** [datetime.today().strftime("%Y-%m-%d-%H-%M")]: the clock, cut to the minute. *)
Definition today_minute (now : Z) : Z := 60 * (now / 60).

(** [HistoricalData.__init__].  The [isinstance] checks are carried by the
    types; [now] is the clock reading used when [end_date] is omitted. *)
Definition init (now : Z) (ticker : string) (granularity : Z) (start_date : Z)
    (end_date : option Z) (verbose : bool) : exn + HistoricalData :=
  match GRANULARITIES granularity with
  | None => inl (ValueError BadGranularity)
  | Some _ =>
      match end_date with
      | None =>
          inr {| ticker := ticker; granularity := granularity;
                 start_date := start_date; end_date := today_minute now;
                 verbose := verbose |}
      | Some e =>
          if start_date >=? e then inl (ValueError EndBeforeStart)
          else inr {| ticker := ticker; granularity := granularity;
                      start_date := start_date; end_date := e;
                      verbose := verbose |}
      end
  end.

(** ** Window planner *)

Definition max_per_mssg : Z := 300.

(** [request_volume]: the float [abs((end - start).total_seconds()) /
    granularity] is handed to [pd.date_range] as [periods], which casts it
    with [int(...)] and returns exactly that many instants; [len(times)] is
    therefore the quotient rounded down. *)
Definition request_volume (self : HistoricalData) : Z :=
  Z.abs (end_date self - start_date self) / granularity self.

(** [range(int(request_volume / max_per_mssg) + 1)] *)
Definition chunk_range (self : HistoricalData) : list nat :=
  seq 0 (Z.to_nat (request_volume self / max_per_mssg + 1)).

Definition provisional_start (self : HistoricalData) (i : nat) : Z :=
  start_date self + Z.of_nat i * (granularity self * max_per_mssg).

Definition provisional_end (self : HistoricalData) (i : nat) : Z :=
  start_date self + (Z.of_nat i + 1) * (granularity self * max_per_mssg).

Definition chunk_request (self : HistoricalData) (name : string) (i : nat) : request :=
  GetCandles (ticker self) (Text (provisional_start self i))
    (Text (provisional_end self i)) name (request_volume self).

Definition single_request (self : HistoricalData) (name : string) : request :=
  GetCandles (ticker self) (Unix (start_date self)) (Unix (end_date self))
    name (request_volume self).

(** The name the URLs carry (empty when the table has none). *)
Definition gname (self : HistoricalData) : string :=
  match GRANULARITIES (granularity self) with
  | Some name => name
  | None => EmptyString
  end.

(** The candle requests the planner schedules. *)
Definition planned (self : HistoricalData) : list request :=
  if request_volume self <=? 300 then [single_request self (gname self)]
  else map (chunk_request self (gname self)) (chunk_range self).

(** The instants a [pd.Timestamp] can hold, in whole seconds since the
    epoch: 1677-09-21 00:12:44 to 2262-04-11 23:47:16.  For a start or an end
    outside them [pd.date_range] raises [OutOfBoundsDatetime], after the
    ticker check and before any candles request; what [request_volume] and
    the candle requests of [retrieve_data] below say of the planner holds of
    the code for instants inside. *)
Definition Timestamp_min : Z := -9223372036.

Definition Timestamp_max : Z := 9223372036.

Definition representable (t : Z) : Prop := Timestamp_min <= t <= Timestamp_max.

(** ** Status codes *)

Definition mem (x : Z) (l : list Z) : bool := existsb (Z.eqb x) l.

Definition success (status : Z) : bool := mem status [200; 201; 202; 203; 204].

(** The [elif] chain after the success test. *)
Definition http_error (status : Z) : exn :=
  if mem status [400; 401; 404] then HTTPError status
  else if mem status [403; 500; 501] then ConnectionError status
  else RequestException status.

(** ** Series assembly *)

Section Assembly.

Context {A : Type}.
Variable A_eq_dec : forall x y : A, {x = y} + {x <> y}.

Definition values_eq_dec (u v : A * A * A * A * A) : {u = v} + {u <> v}.
Proof. repeat decide equality. Defined.

(** [data[data['time'].between(start, end)]], bounds included. *)
Definition between (start end_ : Z) (data : list (candle A)) : list (candle A) :=
  filter (fun c => (start <=? time c) && (time c <=? end_)) data.

(** [sort_index(ascending=True)]: rows ordered by [time].  This sort keeps
    rows of equal [time] in their relative order; the default sort of
    pandas (quicksort) does so on small frames only, and the order it leaves
    among rows of one timestamp in a larger frame is not described here. *)
Fixpoint insert (c : candle A) (l : list (candle A)) : list (candle A) :=
  match l with
  | [] => [c]
  | d :: l' => if time c <=? time d then c :: l else d :: insert c l'
  end.

Fixpoint sort_index (data : list (candle A)) : list (candle A) :=
  match data with
  | [] => []
  | c :: data' => insert c (sort_index data')
  end.

(** [drop_duplicates(subset=None, keep='first')] after [set_index("time")]:
    a row is dropped when an earlier row has the same value columns; the
    index takes no part in the comparison. *)
Fixpoint drop_dups (seen : list (A * A * A * A * A)) (data : list (candle A))
    : list (candle A) :=
  match data with
  | [] => []
  | c :: data' =>
      if in_dec values_eq_dec (values c) seen then drop_dups seen data'
      else c :: drop_dups (values c :: seen) data'
  end.

Definition drop_duplicates (data : list (candle A)) : list (candle A) :=
  drop_dups [] data.

(** The five statements shared by both paths once the columns are named. *)
Definition assemble (start end_ : Z) (data : list (candle A)) : list (candle A) :=
  drop_duplicates (sort_index (between start end_ data)).

(** The assembler as the specification words it: discard what is outside
    the window, remove duplicate timestamps keeping the first occurrence in
    chunk order, then sort ascending by timestamp. *)
Fixpoint dedup_time (seen : list Z) (data : list (candle A)) : list (candle A) :=
  match data with
  | [] => []
  | c :: data' =>
      if in_dec Z.eq_dec (time c) seen then dedup_time seen data'
      else c :: dedup_time (time c :: seen) data'
  end.

Definition assemble_spec (start end_ : Z) (chunks : list (list (candle A)))
    : list (candle A) :=
  sort_index (dedup_time [] (between start end_ (concat chunks))).

(** Order of rows by timestamp. *)
Definition time_le (c d : candle A) : Prop := time c <= time d.

End Assembly.

(** ** The retrieval, in a state and exception monad over the remote API *)

Record response (A : Type) : Type := {
  status_code : Z;
  ids : list string;          (* response_data["id"].tolist() *)
  candles : list (candle A)   (* response.json()['candles'] *)
}.
Arguments status_code {A} _.
Arguments ids {A} _.
Arguments candles {A} _.

(** The frame handed back: as parsed, or after [astype(float)]. *)
Inductive DataFrame (A F : Type) : Type :=
| Parsed (rows : list (candle A))
| Floats (rows : list (candle F)).
Arguments Parsed {A F} _.
Arguments Floats {A F} _.

Section Retrieval.

Context {A F St : Type}.
Variable A_eq_dec : forall x y : A, {x = y} + {x <> y}.
Variable to_float : A -> option F.
Variable serve : St -> request -> response A * St.

Record world : Type := {
  remote : St;
  trace : list (request * response A)
}.

Definition M (X : Type) : Type := world -> (exn + X) * world.

Definition ret {X} (x : X) : M X := fun w => (inr x, w).

Definition raise {X} (e : exn) : M X := fun w => (inl e, w).

Definition bind {X Y} (m : M X) (k : X -> M Y) : M Y :=
  fun w =>
    match m w with
    | (inl e, w') => (inl e, w')
    | (inr x, w') => k x w'
    end.

Notation "x <- m ;; k" := (bind m (fun x => k))
  (at level 61, m at next level, right associativity).

(** [requests.get(url)] *)
Definition requests_get (r : request) : M (response A) :=
  fun w =>
    let (resp, s') := serve (remote w) r in
    (inr resp, {| remote := s'; trace := trace w ++ [(r, resp)] |}).

(** [GRANULARITIES[self.granularity]] inside the URL. *)
Definition granularity_name (self : HistoricalData) : M string :=
  match GRANULARITIES (granularity self) with
  | Some name => ret name
  | None => raise KeyError
  end.

(** [_ticker_checker].  [pd.json_normalize] of a catalog without products
    is a frame without columns, on which [response_data["id"]] raises
    [KeyError]. *)
Definition ticker_checker (self : HistoricalData) : M unit :=
  tkr_response <- requests_get GetProducts ;;
  if success (status_code tkr_response) then
    match ids tkr_response with
    | [] => raise KeyError
    | ticker_list =>
        if in_dec string_dec (ticker self) ticker_list then ret tt
        else raise (ValueError TickerNotAvailable)
    end
  else raise (http_error (status_code tkr_response)).

(** [data.columns = ["time", "low", "high", "open", "close", "volume"]]: a
    frame built from no rows has no columns and the assignment raises. *)
Definition set_columns (data : list (candle A)) : M (list (candle A)) :=
  match data with
  | [] => raise (ValueError LengthMismatch)
  | _ :: _ => ret data
  end.

Definition candle_to_float (c : candle A) : option (candle F) :=
  match to_float (low c), to_float (high c), to_float (open c),
        to_float (close c), to_float (volume c) with
  | Some l, Some h, Some o, Some cl, Some v => Some (Candle (time c) l h o cl v)
  | _, _, _, _, _ => None
  end.

Fixpoint rows_to_float (data : list (candle A)) : option (list (candle F)) :=
  match data with
  | [] => Some []
  | c :: data' =>
      match candle_to_float c, rows_to_float data' with
      | Some c', Some rest => Some (c' :: rest)
      | _, _ => None
      end
  end.

(** [data.astype(float)] *)
Definition astype_float (data : list (candle A)) : M (DataFrame A F) :=
  match rows_to_float data with
  | Some rows => ret (Floats rows)
  | None => raise (ValueError NotNumeric)
  end.

(** The [for i in range(...)] loop of the chunked path; [data] is the frame
    accumulated so far. *)
Fixpoint chunk_loop (self : HistoricalData) (range : list nat)
    (data : list (candle A)) : M (list (candle A)) :=
  match range with
  | [] => ret data
  | i :: range' =>
      name <- granularity_name self ;;
      response <- requests_get (chunk_request self name i) ;;
      if success (status_code response) then
        match candles response with
        | [] => chunk_loop self range' data
        | dataset => chunk_loop self range' (data ++ dataset)
        end
      else raise (http_error (status_code response))
  end.

(** The branch [if request_volume <= 300] of [retrieve_data]. *)
Definition fetch_single (self : HistoricalData) : M (DataFrame A F) :=
  let start := start_date self in
  let end_ := end_date self in
  name <- granularity_name self ;;
  response <- requests_get (single_request self name) ;;
  if success (status_code response) then
    data <- set_columns (candles response) ;;
    ret (Parsed (assemble A_eq_dec start end_ data))
  else raise (http_error (status_code response)).

(** The [else] branch of [retrieve_data]. *)
Definition fetch_chunked (self : HistoricalData) : M (DataFrame A F) :=
  let start := start_date self in
  let end_ := end_date self in
  data <- chunk_loop self (chunk_range self) [] ;;
  data <- set_columns data ;;
  astype_float (assemble A_eq_dec start end_ data).

(** [retrieve_data] *)
Definition retrieve_data (self : HistoricalData) : M (DataFrame A F) :=
  _ <- ticker_checker self ;;
  if request_volume self <=? 300 then fetch_single self
  else fetch_chunked self.

(** A caller's [HistoricalData(...).retrieve_data()]. *)
Definition run (now : Z) (ticker : string) (granularity : Z) (start_date : Z)
    (end_date : option Z) (verbose : bool) : M (DataFrame A F) :=
  match init now ticker granularity start_date end_date verbose with
  | inl e => raise e
  | inr self => retrieve_data self
  end.

(** An exchange answered with a success status. *)
Definition ok (x : request * response A) : Prop := success (status_code (snd x)) = true.

(** The rows delivered by a list of exchanges, in order. *)
Definition fetched (new : list (request * response A)) : list (candle A) :=
  concat (map (fun x => candles (snd x)) new).

(** An exchange answered with an error status is the last one, and its
    status decides the exception. *)
Definition aborted (new : list (request * response A)) (e : exn) : Prop :=
  exists pre x, new = pre ++ [x] /\ Forall ok pre /\
    success (status_code (snd x)) = false /\ e = http_error (status_code (snd x)).

(** [c'] is row [c] after [astype(float)]. *)
Definition cast_of (c : candle A) (c' : candle F) : Prop :=
  time c' = time c /\
  to_float (low c) = Some (low c') /\ to_float (high c) = Some (high c') /\
  to_float (open c) = Some (open c') /\ to_float (close c) = Some (close c') /\
  to_float (volume c) = Some (volume c').

End Retrieval.

(** ** Concrete remote APIs and requests *)

(** [float(s)] on the strings used below: a run of decimal digits. *)
Fixpoint digits (s : string) (acc : Z) : option Z :=
  match s with
  | EmptyString => Some acc
  | String c s' =>
      let n := Z.of_nat (Ascii.nat_of_ascii c) in
      if (48 <=? n) && (n <=? 57) then digits s' (10 * acc + (n - 48)) else None
  end.

Definition float_of_string (s : string) : option Z :=
  match s with
  | EmptyString => None
  | String _ _ => digits s 0
  end.

Definition btc : string := "BTC-USD"%string.

(** A candle whose five value columns all read [v]. *)
Definition flat (t : Z) (v : string) : candle string := Candle t v v v v v.

Definition catalog : response string :=
  {| status_code := 200; ids := [btc; "ETH-USD"%string]; candles := [] |}.

Definition reply (status : Z) (rows : list (candle string)) : response string :=
  {| status_code := status; ids := []; candles := rows |}.

(** A remote API that answers its n-th request with the n-th entry of a
    script (and with an empty success once the script is used up); its
    state is the number of requests answered so far. *)
Definition scripted (answers : list (response string)) (n : nat) (r : request)
    : response string * nat :=
  (nth n answers (reply 200 []), S n).

Definition fresh : @world string nat := {| remote := 0%nat; trace := [] |}.

(** Ten hours of one-minute candles: 600 candles, three chunk requests. *)
Definition ten_hours : HistoricalData :=
  {| ticker := btc; granularity := 60; start_date := 0; end_date := 36000;
     verbose := false |}.

(** 1501 minutes of five-minute candles:
    [request_volume] is 300, the quotient rounded up is 301. *)
Definition five_minute_day : HistoricalData :=
  {| ticker := btc; granularity := 300; start_date := 0; end_date := 90060;
     verbose := false |}.

(** The expected count as the specification words it:
    [ceil(|end - start| / granularity_seconds)]. *)
Definition expected_count_spec (self : HistoricalData) : Z :=
  (Z.abs (end_date self - start_date self) + granularity self - 1) / granularity self.

(** The windows of the candle requests in a trace. *)
Definition candle_windows {A : Type} (tr : list (request * response A)) : list (Z * Z) :=
  map (fun x => window (fst x)) (filter (fun x => is_candles (fst x)) tr).

Definition candle_limits {A : Type} (tr : list (request * response A)) : list Z :=
  map (fun x => limit_of (fst x)) (filter (fun x => is_candles (fst x)) tr).

(** The [time] index of a returned frame. *)
Definition timestamps {A F : Type} (df : DataFrame A F) : list Z :=
  match df with
  | Parsed rows => map time rows
  | Floats rows => map time rows
  end.

(** Two chunks deliver one candle each, the third is empty. *)
Definition two_candles : list (response string) :=
  [catalog; reply 200 [flat 60 "1"]; reply 200 [flat 18060 "2"]; reply 200 []].

(** The candle at the boundary of the first two chunks is delivered by
    both, with a different closing state each time. *)
Definition boundary_twice : list (response string) :=
  [catalog; reply 200 [flat 18000 "100"]; reply 200 [flat 18000 "101"]; reply 200 []].

(** Every chunk is answered with a success that holds no candle. *)
Definition no_candles : list (response string) :=
  [catalog; reply 200 []; reply 200 []; reply 200 []].

(** The second chunk is answered with status 404. *)
Definition not_found_second : list (response string) :=
  [catalog; reply 200 [flat 60 "1"]; reply 404 []].

(** Ten hours of hourly candles: 10 candles, one request. *)
Definition ten_hours_hourly : HistoricalData :=
  {| ticker := btc; granularity := 3600; start_date := 0; end_date := 36000;
     verbose := false |}.

(** ** [HistoricalData._date_cleaner] *)

Module Dates.

(** A naive [datetime] down to the second. *)
Record datetime : Type := {
  year : nat;
  month : nat;
  day : nat;
  hour : nat;
  minute : nat;
  second : nat
}.

(** The ranges the fields of every [datetime] object lie in. *)
Definition well_formed (d : datetime) : Prop :=
  1 <= Z.of_nat (year d) <= 9999 /\
  (1 <= month d <= 12 /\ 1 <= day d <= 31 /\
   hour d <= 23 /\ minute d <= 59 /\ second d <= 59)%nat.

Definition decimal (n : nat) : string :=
  NilEmpty.string_of_uint (Nat.to_uint n).

Fixpoint zeros (k : nat) : string :=
  match k with
  | O => EmptyString
  | S k' => ("0" ++ zeros k')%string
  end.

(** [%02d], [%04d]: decimal, filled with zeros on the left up to [width]. *)
Definition zfill (width : nat) (n : nat) : string :=
  let s := decimal n in
  (zeros (width - String.length s) ++ s)%string.

(** [date_time.strftime("%Y-%m-%d, %H:%M:%S")].  [%Y] is written as the C
    library of Linux writes it, without padding; libraries that pad the
    year to four digits give the same text from year 1000 on. *)
Definition strftime (d : datetime) : string :=
  (decimal (year d) ++ "-" ++ zfill 2 (month d) ++ "-" ++ zfill 2 (day d)
   ++ ", " ++ zfill 2 (hour d) ++ ":" ++ zfill 2 (minute d) ++ ":"
   ++ zfill 2 (second d))%string.

(** [datetime.isoformat()] of a naive datetime without microseconds. *)
Definition isoformat (d : datetime) : string :=
  (zfill 4 (year d) ++ "-" ++ zfill 2 (month d) ++ "-" ++ zfill 2 (day d)
   ++ "T" ++ zfill 2 (hour d) ++ ":" ++ zfill 2 (minute d) ++ ":"
   ++ zfill 2 (second d))%string.

(** [s[n:]] *)
Fixpoint slice_from (n : nat) (s : string) : string :=
  match n, s with
  | O, _ => s
  | S n', String _ s' => slice_from n' s'
  | S _, EmptyString => EmptyString
  end.

(** [s[:n]] *)
Definition slice_to (n : nat) (s : string) : string := substring 0 n s.

(** [_date_cleaner].  The argument is a [datetime] or a string (anything
    else raises [TypeError]); [strptime] is
    [datetime.strptime(_, '%Y-%m-%d-%H-%M')], whose failure ([None]) is the
    [ValueError] the call lets through. *)
Definition date_cleaner (strptime : string -> option datetime)
    (date_time : datetime + string) : option string :=
  match date_time with
  | inr text =>
      match strptime text with
      | Some d => Some (isoformat d)
      | None => None
      end
  | inl d =>
      let output_date := strftime d in
      Some (slice_to 10 output_date ++ "T" ++ slice_from 12 output_date)%string
  end.

End Dates.

(** ** [Cryptocurrencies] *)

Module Cryptocurrencies.

Section Catalog.

(** [V] is the type of the cells other than [id]. *)
Context {V : Type}.

(** [Series.str.contains(pattern)]: the pattern is compiled as a regular
    expression first, [re.compile(pattern)], which raises [re.error]
    ([None]) for a text that is none; the compiled pattern is then searched
    for in each id. *)
Variable compile : string -> option (string -> bool).

(** One decoded product of the catalog: the five columns of the reduced
    output and the remaining ones. *)
Record product : Type := {
  id : string;
  display_name : V;
  fx_stablecoin : V;
  max_slippage_percentage : V;
  status : V;
  other : list (string * V)
}.

Record response : Type := {
  status_code : Z;
  products : list product      (* json.loads(response.text) *)
}.

(** The object; [None] for a flag counts as [False], as the tests on the
    flags treat it. *)
Record t : Type := {
  extended_output : bool;
  coin_search : option string;
  verbose : bool
}.

Inductive frame : Type :=
| Extended (rows : list product)
| Condensed (rows : list (string * V * V * V * V)).

Definition reduced (p : product) : string * V * V * V * V :=
  (id p, display_name p, fx_stablecoin p, max_slippage_percentage p, status p).

(** [if self.coin_search:] is false for [None] and for the empty string. *)
Definition search_term (self : t) : option string :=
  match coin_search self with
  | Some EmptyString => None
  | other => other
  end.

(** [find_crypto_pairs], as a function of the answer to its one request
    [GET /products].  [pd.json_normalize] of an empty list is a frame
    without columns, on which [response_data['id']] and the selection of
    the five columns raise [KeyError]. *)
Definition find_crypto_pairs (self : t) (response : response) : exn + frame :=
  if success (status_code response) then
    let response_data := products response in
    let searched :=
      match search_term self with
      | Some term =>
          match response_data with
          | [] => inl KeyError
          | _ :: _ =>
              match compile term with
              | None => inl ReError
              | Some found_in =>
                  match filter (fun p => found_in (id p)) response_data with
                  | [] => inr response_data
                  | outcome => inr outcome
                  end
              end
          end
      | None => inr response_data
      end in
    match searched with
    | inl e => inl e
    | inr outcome =>
        if extended_output self then inr (Extended outcome)
        else
          match outcome with
          | [] => inl KeyError
          | _ :: _ => inr (Condensed (map reduced outcome))
          end
    end
  else inl (http_error (status_code response)).

(** The [id] column of a returned frame. *)
Definition frame_ids (f : frame) : list string :=
  match f with
  | Extended rows => map id rows
  | Condensed rows => map (fun r => fst (fst (fst (fst r)))) rows
  end.

End Catalog.

End Cryptocurrencies.

(** ** [LiveCryptoData] *)

Module LiveCryptoData.

Inductive request : Type :=
| GetProducts
| GetTicker (ticker : string).

(** A decoded answer: the status code, the ids of the catalog (for
    [GetProducts]) and the fields of the JSON object in their order (for
    [GetTicker]). *)
Record response : Type := {
  status_code : Z;
  ids : list string;
  fields : list (string * string)
}.

Record t : Type := {
  ticker : string;
  verbose : bool
}.

(** The one-row frame [return_data] hands back: the parsed [time] as its
    index and the remaining columns. *)
Record frame : Type := {
  index : Z;
  columns : list (string * string)
}.

Inductive error : Type :=
| Raised (e : exn)
| DateParseError.       (* pd.to_datetime on a text that is no date *)

Fixpoint lookup (key : string) (l : list (string * string)) : option string :=
  match l with
  | [] => None
  | (k, v) :: l' => if String.eqb k key then Some v else lookup key l'
  end.

Section Run.

Context {St : Type}.
Variable serve : St -> request -> response * St.
Variable to_datetime : string -> option Z.

Record world : Type := {
  remote : St;
  trace : list (request * response)
}.

Definition M (X : Type) : Type := world -> (error + X) * world.

Definition ret {X} (x : X) : M X := fun w => (inr x, w).

Definition raise {X} (e : error) : M X := fun w => (inl e, w).

Definition bind {X Y} (m : M X) (k : X -> M Y) : M Y :=
  fun w =>
    match m w with
    | (inl e, w') => (inl e, w')
    | (inr x, w') => k x w'
    end.

Notation "x <- m ;; k" := (bind m (fun x => k))
  (at level 61, m at next level, right associativity).

Definition requests_get (r : request) : M response :=
  fun w =>
    let (resp, s') := serve (remote w) r in
    (inr resp, {| remote := s'; trace := trace w ++ [(r, resp)] |}).

(** [_ticker_checker].  On a catalog without products
    [response_data["id"]] raises [KeyError], as in [HistoricalData]. *)
Definition ticker_checker (self : t) : M unit :=
  tkr_response <- requests_get GetProducts ;;
  if success (status_code tkr_response) then
    match ids tkr_response with
    | [] => raise (Raised KeyError)
    | ticker_list =>
        if in_dec string_dec (ticker self) ticker_list then ret tt
        else raise (Raised (ValueError TickerNotAvailable))
    end
  else raise (Raised (http_error (status_code tkr_response))).

(** [return_data] *)
Definition return_data (self : t) : M frame :=
  _ <- ticker_checker self ;;
  response <- requests_get (GetTicker (ticker self)) ;;
  if success (status_code response) then
    let response_data := fields response in
    match lookup "time" response_data with
    | None => raise (Raised KeyError)
    | Some text =>
        match to_datetime text with
        | None => raise DateParseError
        | Some instant =>
            ret {| index := instant;
                   columns := filter (fun kv => negb (String.eqb (fst kv) "time"))
                                response_data |}
        end
    end
  else raise (Raised (http_error (status_code response))).

End Run.

End LiveCryptoData.

(** ** Concrete catalogs and tickers *)

(** The pattern occurs in the text. *)
Definition occurs_in (text pattern : string) : bool :=
  match index 0 pattern text with
  | Some _ => true
  | None => false
  end.

(** Letters, digits and the hyphen. *)
Definition plain_char (c : Ascii.ascii) : bool :=
  let n := Z.of_nat (Ascii.nat_of_ascii c) in
  ((48 <=? n) && (n <=? 57)) || ((65 <=? n) && (n <=? 90))
  || ((97 <=? n) && (n <=? 122)) || (n =? 45).

Fixpoint plain (s : string) : bool :=
  match s with
  | EmptyString => true
  | String c s' => plain_char c && plain s'
  end.

(** [re.compile] on the search terms used below: a term of letters, digits
    and hyphens is found in a text where it occurs; the one other term
    used, ["*"], is no regular expression.  (Terms with other special
    characters are not used; this instance turns them all down.) *)
Definition compile_term (term : string) : option (string -> bool) :=
  if plain term then Some (fun text => occurs_in text term) else None.

Definition coin (name : string) : @Cryptocurrencies.product string :=
  {| Cryptocurrencies.id := name;
     Cryptocurrencies.display_name := name;
     Cryptocurrencies.fx_stablecoin := "False"%string;
     Cryptocurrencies.max_slippage_percentage := "0.03"%string;
     Cryptocurrencies.status := "online"%string;
     Cryptocurrencies.other := [("quote_increment"%string, "0.01"%string)] |}.

Definition listing : @Cryptocurrencies.response string :=
  {| Cryptocurrencies.status_code := 200;
     Cryptocurrencies.products := [coin "BTC-USD"; coin "DOGE-USD"; coin "DOGE-EUR"] |}.

Definition searching (term : option string) (extended : bool) : Cryptocurrencies.t :=
  {| Cryptocurrencies.extended_output := extended;
     Cryptocurrencies.coin_search := term;
     Cryptocurrencies.verbose := false |}.

(** A remote API for [LiveCryptoData] that answers from a script. *)
Definition live_scripted (answers : list LiveCryptoData.response) (n : nat)
    (r : LiveCryptoData.request) : LiveCryptoData.response * nat :=
  (nth n answers
     {| LiveCryptoData.status_code := 200; LiveCryptoData.ids := [];
        LiveCryptoData.fields := [] |},
   S n).

Definition live_catalog : LiveCryptoData.response :=
  {| LiveCryptoData.status_code := 200;
     LiveCryptoData.ids := [btc; "ETH-USD"%string];
     LiveCryptoData.fields := [] |}.

Definition live_quote : LiveCryptoData.response :=
  {| LiveCryptoData.status_code := 200;
     LiveCryptoData.ids := [];
     LiveCryptoData.fields :=
       [("trade_id", "7"); ("price", "36500.1"); ("time", "2021-06-01T12:30:00Z");
        ("bid", "36500.0"); ("ask", "36500.2")]%string |}.

(** [pd.to_datetime] on the one text the quotes below carry. *)
Definition parse_quote_time (text : string) : option Z :=
  if String.eqb text "2021-06-01T12:30:00Z" then Some 1622550600 else None.

Definition live_fresh : @LiveCryptoData.world nat :=
  {| LiveCryptoData.remote := 0%nat; LiveCryptoData.trace := [] |}.

Definition live_btc : LiveCryptoData.t :=
  {| LiveCryptoData.ticker := btc; LiveCryptoData.verbose := false |}.

(** Texts of exactly two and of exactly four characters. *)
Definition two_chars (s : string) : bool :=
  match s with
  | String _ (String _ EmptyString) => true
  | _ => false
  end.

Definition four_chars (s : string) : bool :=
  match s with
  | String _ (String _ (String _ (String _ EmptyString))) => true
  | _ => false
  end.

(** ** Facts about the assembly *)

Section AssemblyFacts.

Context {A : Type}.
Variable A_eq_dec : forall x y : A, {x = y} + {x <> y}.

Abbreviation dd := (drop_dups A_eq_dec).

Lemma between_In (start end_ : Z) (data : list (candle A)) (c : candle A) :
  In c (between start end_ data) <-> In c data /\ start <= time c <= end_.
Proof.
  unfold between. rewrite filter_In, andb_true_iff, !Z.leb_le. tauto.
Qed.

Lemma insert_In (c x : candle A) (l : list (candle A)) :
  In x (insert c l) <-> x = c \/ In x l.
Proof.
  induction l as [|d l IH]; simpl.
  - intuition congruence.
  - destruct (time c <=? time d); simpl; [intuition congruence|].
    rewrite IH. intuition congruence.
Qed.

Lemma sort_index_In (x : candle A) (l : list (candle A)) :
  In x (sort_index l) <-> In x l.
Proof.
  induction l as [|c l IH]; simpl; [tauto|].
  rewrite insert_In, IH. intuition congruence.
Qed.

Lemma insert_sorted (c : candle A) (l : list (candle A)) :
  StronglySorted time_le l -> StronglySorted time_le (insert c l).
Proof.
  induction 1 as [|d l Hl IH Hd]; simpl.
  - constructor; constructor.
  - destruct (Z.leb_spec (time c) (time d)) as [Hle|Hgt].
    + constructor; [constructor; assumption|].
      constructor; [exact Hle|].
      eapply Forall_impl; [|exact Hd]. unfold time_le. intros; lia.
    + constructor; [exact IH|].
      apply Forall_forall. intros x Hx. apply insert_In in Hx.
      destruct Hx as [->|Hx]; [unfold time_le; lia|].
      rewrite Forall_forall in Hd. auto.
Qed.

Lemma sort_index_sorted (l : list (candle A)) :
  StronglySorted time_le (sort_index l).
Proof.
  induction l; simpl; [constructor|apply insert_sorted; assumption].
Qed.

Lemma drop_dups_In (seen : list (A * A * A * A * A)) (l : list (candle A)) (c : candle A) :
  In c (dd seen l) -> In c l.
Proof.
  revert seen. induction l as [|x l IH]; simpl; intros seen H; [assumption|].
  destruct (in_dec _ (values x) seen); [eauto|].
  destruct H; eauto.
Qed.

Lemma drop_dups_sorted (seen : list (A * A * A * A * A)) (l : list (candle A)) :
  StronglySorted time_le l -> StronglySorted time_le (dd seen l).
Proof.
  intros H. revert seen.
  induction H as [|x l Hs IH Hx]; simpl; intros seen; [constructor|].
  destruct (in_dec _ (values x) seen); [apply IH|].
  constructor; [apply IH|].
  rewrite Forall_forall in *. intros y Hy. apply Hx. eapply drop_dups_In; eassumption.
Qed.

Lemma assemble_in_window (start end_ : Z) (data : list (candle A)) (c : candle A) :
  In c (assemble A_eq_dec start end_ data) -> start <= time c <= end_.
Proof.
  unfold assemble, drop_duplicates. intros H.
  apply drop_dups_In, sort_index_In, between_In in H. tauto.
Qed.

Lemma assemble_sorted (start end_ : Z) (data : list (candle A)) :
  StronglySorted time_le (assemble A_eq_dec start end_ data).
Proof. apply drop_dups_sorted, sort_index_sorted. Qed.

Lemma drop_dups_fresh (l : list (candle A)) :
  forall seen,
    NoDup (map values (dd seen l)) /\
    (forall c, In c (dd seen l) -> ~ In (values c) seen).
Proof.
  induction l as [|x l IH]; simpl; intros seen.
  - split; [constructor|tauto].
  - destruct (in_dec _ (values x) seen) as [I|N]; [apply IH|].
    destruct (IH (values x :: seen)) as [Hnd Hfresh]. simpl. split.
    + constructor; [|exact Hnd].
      intros Hin. apply in_map_iff in Hin. destruct Hin as (c & Ec & Hc).
      apply (Hfresh c Hc). left. symmetry. exact Ec.
    + intros c [<-|Hc]; [exact N|].
      intros Hin. apply (Hfresh c Hc). right. exact Hin.
Qed.

Lemma sorted_times (l : list (candle A)) :
  StronglySorted time_le l -> StronglySorted Z.le (map time l).
Proof.
  induction 1 as [|c l _ IH Hc]; simpl; constructor; [exact IH|].
  apply Forall_forall. intros t Ht. apply in_map_iff in Ht.
  destruct Ht as (d & <- & Hd). rewrite Forall_forall in Hc. apply Hc, Hd.
Qed.

End AssemblyFacts.

(** ** Facts about the planner *)

Lemma granularity_pos (g : Z) (name : string) :
  GRANULARITIES g = Some name -> 60 <= g.
Proof.
  unfold GRANULARITIES.
  repeat match goal with
         | |- context [?x =? ?y] => destruct (Z.eqb_spec x y); [lia|]
         end.
  discriminate.
Qed.

Lemma request_volume_nonneg (self : HistoricalData) :
  0 < granularity self -> 0 <= request_volume self.
Proof.
  intros Hg. unfold request_volume. apply Z.div_pos; lia.
Qed.

(** [request_volume] is the quotient rounded down. *)
Lemma request_volume_floor (self : HistoricalData) :
  0 < granularity self ->
  request_volume self * granularity self <= Z.abs (end_date self - start_date self)
  /\ Z.abs (end_date self - start_date self) < (request_volume self + 1) * granularity self.
Proof.
  intros Hg. unfold request_volume.
  set (d := Z.abs (end_date self - start_date self)).
  pose proof (Z.div_mod d (granularity self) ltac:(lia)) as E.
  pose proof (Z.mod_pos_bound d (granularity self) Hg) as B.
  nia.
Qed.

Lemma chunk_range_length (self : HistoricalData) :
  0 < granularity self ->
  Z.of_nat (length (chunk_range self)) = request_volume self / max_per_mssg + 1.
Proof.
  intros Hg. unfold chunk_range. rewrite length_seq.
  pose proof (request_volume_nonneg self Hg).
  assert (0 <= request_volume self / max_per_mssg)
    by (apply Z.div_pos; unfold max_per_mssg; lia).
  lia.
Qed.

Lemma chunk_span (self : HistoricalData) (i : nat) :
  provisional_end self i - provisional_start self i = 300 * granularity self.
Proof. unfold provisional_end, provisional_start, max_per_mssg. lia. Qed.

Lemma chunk_contiguous (self : HistoricalData) (i : nat) :
  provisional_end self i = provisional_start self (S i).
Proof. unfold provisional_end, provisional_start. lia. Qed.

(** Every sub-window but the last ends inside the requested range. *)
Lemma chunk_inner_end (self : HistoricalData) (i : nat) :
  0 < granularity self -> start_date self < end_date self ->
  (S i < length (chunk_range self))%nat ->
  provisional_end self i <= end_date self.
Proof.
  intros Hg Hse Hi.
  pose proof (chunk_range_length self Hg) as L.
  pose proof (request_volume_floor self Hg) as [Lo _].
  pose proof (request_volume_nonneg self Hg) as N.
  pose proof (Z.div_mod (request_volume self) max_per_mssg ltac:(unfold max_per_mssg; lia)) as E.
  pose proof (Z.mod_pos_bound (request_volume self) max_per_mssg ltac:(unfold max_per_mssg; lia)) as B.
  unfold provisional_end, max_per_mssg in *.
  rewrite Z.abs_eq in Lo by lia.
  nia.
Qed.

(** The last sub-window ends after the requested range. *)
Lemma chunk_last_end (self : HistoricalData) (i : nat) :
  0 < granularity self -> start_date self < end_date self ->
  S i = length (chunk_range self) ->
  end_date self < provisional_end self i.
Proof.
  intros Hg Hse Hi.
  pose proof (chunk_range_length self Hg) as L.
  pose proof (request_volume_floor self Hg) as [_ Hi'].
  pose proof (request_volume_nonneg self Hg) as N.
  pose proof (Z.div_mod (request_volume self) max_per_mssg ltac:(unfold max_per_mssg; lia)) as E.
  pose proof (Z.mod_pos_bound (request_volume self) max_per_mssg ltac:(unfold max_per_mssg; lia)) as B.
  unfold provisional_end, max_per_mssg in *.
  rewrite Z.abs_eq in Hi' by lia.
  nia.
Qed.

(** ** Facts about runs of the retrieval *)

Section RetrievalFacts.

Context {A F St : Type}.
Variable A_eq_dec : forall x y : A, {x = y} + {x <> y}.
Variable to_float : A -> option F.
Variable serve : St -> request -> response A * St.

Abbreviation world := (@world A St).
Abbreviation exchange := (request * response A)%type.

Lemma requests_get_run (r : request) (w : world) :
  exists resp s',
    serve (remote w) r = (resp, s') /\
    requests_get serve r w = (inr resp, {| remote := s'; trace := trace w ++ [(r, resp)] |}).
Proof.
  unfold requests_get. destruct (serve (remote w) r) as [resp s']. eauto.
Qed.

Lemma ticker_checker_run (self : HistoricalData) (w w' : world) (res : exn + unit) :
  ticker_checker serve self w = (res, w') ->
  exists r0,
    serve (remote w) GetProducts = (r0, remote w') /\
    trace w' = trace w ++ [(GetProducts, r0)] /\
    res = (if success (status_code r0) then
             match ids r0 with
             | [] => inl KeyError
             | _ :: _ =>
                 if in_dec string_dec (ticker self) (ids r0) then inr tt
                 else inl (ValueError TickerNotAvailable)
             end
           else inl (http_error (status_code r0))).
Proof.
  unfold ticker_checker, bind.
  destruct (requests_get_run GetProducts w) as (r0 & s' & Hs & ->).
  intros H. exists r0.
  destruct (success (status_code r0));
    [destruct (ids r0) as [|i l] eqn:Ei;
       [|destruct (in_dec string_dec (ticker self) (i :: l))]|];
    inversion H; subst; simpl; auto.
Qed.

Lemma fetched_app (l1 l2 : list exchange) :
  fetched (l1 ++ l2) = fetched l1 ++ fetched l2.
Proof. unfold fetched. rewrite map_app, concat_app. reflexivity. Qed.

(** The chunk loop: the requests sent are a prefix of the planned ones; it
    either runs through with every answer a success, or stops at the first
    error status. *)
Lemma chunk_loop_run (self : HistoricalData) (range : list nat) :
  forall (data : list (candle A)) (w w' : world) (res : exn + list (candle A)),
  chunk_loop serve self range data w = (res, w') ->
  exists k new,
    trace w' = trace w ++ new /\
    map fst new = map (chunk_request self (gname self)) (firstn k range) /\
    match res with
    | inr d => k = length range /\ Forall ok new /\ d = data ++ fetched new
    | inl e =>
        (GRANULARITIES (granularity self) = None /\ e = KeyError /\ new = [])
        \/ aborted new e
    end.
Proof.
  induction range as [|i range IH]; intros data w w' res H.
  - inversion H; subst. exists 0%nat, []. rewrite !app_nil_r. simpl. auto.
  - simpl in H. unfold bind at 1, granularity_name in H. unfold gname.
    destruct (GRANULARITIES (granularity self)) as [name|] eqn:G.
    + unfold ret at 1, bind at 1 in H.
      destruct (requests_get_run (chunk_request self name i) w) as (resp & s' & Hs & E).
      rewrite E in H.
      destruct (success (status_code resp)) eqn:Hok.
      * assert (H' : exists d, chunk_loop serve self range d
                  {| remote := s'; trace := trace w ++ [(chunk_request self name i, resp)] |}
                  = (res, w') /\ d = data ++ candles resp).
        { destruct (candles resp); eexists; split; try exact H; auto using app_nil_r. }
        destruct H' as (d & H' & ->).
        apply IH in H'. destruct H' as (k & new & Ht & Hr & Hres). simpl in Ht.
        exists (S k), ((chunk_request self name i, resp) :: new).
        split; [rewrite Ht, <- app_assoc; reflexivity|].
        split; [simpl; unfold gname in Hr; rewrite G in Hr; rewrite Hr; reflexivity|].
        destruct res as [e|d'].
        -- destruct Hres as [(G' & _)|(pre & x & -> & Hpre & Hx & He)]; [congruence|].
           right. exists ((chunk_request self name i, resp) :: pre), x.
           repeat split; auto.
        -- destruct Hres as (-> & Hall & ->).
           repeat split; [constructor; auto|].
           change (fetched ((chunk_request self name i, resp) :: new))
             with (candles resp ++ fetched new).
           rewrite app_assoc. reflexivity.
      * unfold raise in H. inversion H; subst.
        exists 1%nat, [(chunk_request self name i, resp)].
        repeat split. right. exists [], (chunk_request self name i, resp).
        repeat split; auto.
    + unfold raise in H. inversion H; subst.
      exists 0%nat, []. rewrite app_nil_r. simpl.
      split; [reflexivity|]. split; [reflexivity|]. left. auto.
Qed.

(** The single-request branch. *)
Lemma fetch_single_run (self : HistoricalData) (w w' : world) (res : exn + DataFrame A F) :
  fetch_single A_eq_dec serve self w = (res, w') ->
  (GRANULARITIES (granularity self) = None /\ res = inl KeyError /\ w' = w)
  \/ exists resp,
       serve (remote w) (single_request self (gname self)) = (resp, remote w') /\
       trace w' = trace w ++ [(single_request self (gname self), resp)] /\
       res = (if success (status_code resp) then
                match candles resp with
                | [] => inl (ValueError LengthMismatch)
                | _ :: _ =>
                    inr (Parsed (assemble A_eq_dec (start_date self) (end_date self)
                                   (candles resp)))
                end
              else inl (http_error (status_code resp))).
Proof.
  unfold fetch_single, bind at 1, granularity_name, gname.
  destruct (GRANULARITIES (granularity self)) as [name|].
  - unfold ret at 1, bind at 1.
    destruct (requests_get_run (single_request self name) w) as (resp & s' & Hs & ->).
    intros H. right. exists resp.
    destruct (success (status_code resp)); [destruct (candles resp)|];
      inversion H; subst; simpl; auto.
  - intros H. inversion H; subst. auto.
Qed.

(** The chunked branch. *)
Lemma fetch_chunked_run (self : HistoricalData) (w w' : world) (res : exn + DataFrame A F) :
  fetch_chunked A_eq_dec to_float serve self w = (res, w') ->
  exists k new,
    trace w' = trace w ++ new /\
    map fst new = map (chunk_request self (gname self)) (firstn k (chunk_range self)) /\
    match res with
    | inr df =>
        k = length (chunk_range self) /\ Forall ok new /\ fetched new <> [] /\
        exists rows,
          rows_to_float to_float
            (assemble A_eq_dec (start_date self) (end_date self) (fetched new)) = Some rows /\
          df = Floats rows
    | inl e =>
        (GRANULARITIES (granularity self) = None /\ e = KeyError /\ new = [])
        \/ aborted new e
        \/ (k = length (chunk_range self) /\ Forall ok new /\
            ((fetched new = [] /\ e = ValueError LengthMismatch)
             \/ (fetched new <> [] /\ e = ValueError NotNumeric)))
    end.
Proof.
  unfold fetch_chunked, bind at 1.
  destruct (chunk_loop serve self (chunk_range self) [] w) as [[e|d] w1] eqn:L;
    apply chunk_loop_run in L; destruct L as (k & new & Ht & Hr & Hres); intros H.
  - inversion H; subst. exists k, new. intuition.
  - destruct Hres as (-> & Hall & ->). simpl in H.
    exists (length (chunk_range self)), new.
    unfold bind, set_columns, astype_float in H.
    destruct (fetched new) as [|c d] eqn:Ef.
    + inversion H; subst. intuition.
    + unfold ret at 1 in H.
      destruct (rows_to_float to_float _) as [rows|] eqn:Er;
        inversion H; subst; repeat split; auto; try discriminate.
      * exists rows. auto.
      * right. right. repeat split; auto. right. split; [discriminate|reflexivity].
Qed.

(** Consequence of the shapes above: an exchange answered with an error
    status is never followed by another one. *)
Lemma error_status_is_last (new pre post : list exchange) (x : exchange) (e : exn) :
  Forall ok new \/ aborted new e ->
  new = pre ++ x :: post ->
  success (status_code (snd x)) = false ->
  post = [] /\ aborted new e.
Proof.
  intros [Hall|Hab] E Hx.
  - subst new. apply Forall_app in Hall. destruct Hall as [_ Hall].
    inversion Hall; subst. unfold ok in *. congruence.
  - split; [|exact Hab].
    destruct Hab as (pre' & y & E' & Hpre & Hy & _). subst new.
    destruct post as [|z post] using rev_ind; [reflexivity|].
    rewrite app_comm_cons, app_assoc in E.
    apply app_inj_tail in E. destruct E as [E _]. subst pre'.
    apply Forall_app in Hpre. destruct Hpre as [_ Hpre].
    inversion Hpre; subst. unfold ok in *. congruence.
Qed.

Lemma aborted_last (pre : list exchange) (x : exchange) (e : exn) :
  aborted (pre ++ [x]) e -> e = http_error (status_code (snd x)).
Proof.
  intros (pre' & y & E & _ & _ & ->).
  apply app_inj_tail in E. destruct E as [_ ->]. reflexivity.
Qed.

End RetrievalFacts.

Section Runs.

Context {A F St : Type}.
Variable A_eq_dec : forall x y : A, {x = y} + {x <> y}.
Variable to_float : A -> option F.
Variable serve : St -> request -> response A * St.

Abbreviation retrieve := (retrieve_data A_eq_dec to_float serve).

(** Every run of [retrieve_data]: the ticker check, then a prefix of the
    planned candle requests, cut at the first error status. *)
Lemma retrieve_data_run (self : HistoricalData) (w w' : @world A St)
    (res : exn + DataFrame A F) :
  retrieve self w = (res, w') ->
  exists r0 k new,
    trace w' = trace w ++ (GetProducts, r0) :: new /\
    map fst new = firstn k (planned self) /\
    (fst (ticker_checker serve self w) = inr tt ->
     GRANULARITIES (granularity self) <> None -> new <> []) /\
    match res with
    | inr df =>
        fst (ticker_checker serve self w) = inr tt /\
        k = length (planned self) /\ Forall ok new /\ fetched new <> [] /\
        if request_volume self <=? 300
        then df = Parsed (assemble A_eq_dec (start_date self) (end_date self) (fetched new))
        else exists rows,
               rows_to_float to_float
                 (assemble A_eq_dec (start_date self) (end_date self) (fetched new))
               = Some rows /\ df = Floats rows
    | inl e => Forall ok new \/ aborted new e
    end.
Proof.
  unfold retrieve_data, bind at 1.
  destruct (ticker_checker serve self w) as [[e|[]] w1] eqn:T;
    pose proof (ticker_checker_run serve self w w1 _ T) as (r0 & _ & Ht & _); simpl.
  - intros H. inversion H; subst.
    exists r0, 0%nat, []. simpl. repeat split; auto; discriminate.
  - unfold planned. destruct (request_volume self <=? 300).
    + intros H. apply fetch_single_run in H.
      destruct H as [(G & -> & ->)|(resp & _ & Ht' & ->)].
      * exists r0, 0%nat, []. simpl. repeat split; auto.
      * exists r0, 1%nat, [(single_request self (gname self), resp)].
        split; [rewrite Ht', Ht, <- app_assoc; reflexivity|].
        split; [reflexivity|]. split; [discriminate|].
        destruct (success (status_code resp)) eqn:Hok.
        -- unfold fetched. simpl. rewrite app_nil_r.
           destruct (candles resp) eqn:Ec.
           ++ left. repeat constructor. exact Hok.
           ++ repeat split; try discriminate. repeat constructor. exact Hok.
        -- right. exists [], (single_request self (gname self), resp).
           repeat split; auto.
    + intros H. apply fetch_chunked_run in H.
      destruct H as (k & new & Ht' & Hr & Hres).
      exists r0, k, new.
      split; [rewrite Ht', Ht, <- app_assoc; reflexivity|].
      split; [rewrite firstn_map; exact Hr|].
      split.
      * intros _ G ->. simpl in Hr. symmetry in Hr. apply map_eq_nil in Hr.
        destruct res as [e|df].
        -- destruct Hres as [(G' & _)|[(pre & x & E & _)|(-> & _)]].
           ++ congruence.
           ++ destruct pre; discriminate.
           ++ rewrite firstn_all in Hr. unfold chunk_range in Hr.
              destruct (Z.to_nat _) eqn:En; [|discriminate].
              destruct (GRANULARITIES (granularity self)) as [name|] eqn:G'; [|congruence].
              pose proof (granularity_pos _ _ G').
              pose proof (request_volume_nonneg self ltac:(lia)).
              assert (0 <= request_volume self / max_per_mssg)
                by (apply Z.div_pos; unfold max_per_mssg; lia).
              lia.
        -- destruct Hres as (_ & _ & Hne & _). apply Hne. reflexivity.
      * destruct res as [e|df].
        -- destruct Hres as [(_ & _ & ->)|[Hab|(_ & Hall & _)]]; auto.
        -- destruct Hres as (-> & Hall & Hne & rows & Hrows & ->).
           repeat split; auto; [rewrite length_map; reflexivity|].
           exists rows. auto.
Qed.

End Runs.

(** ** Runs on the concrete requests *)

Example ten_hours_volume : request_volume ten_hours = 600.
Proof. reflexivity. Qed.

(** Ten hours of one-minute candles: three chunk requests of 300 minutes
    each, the last one past the requested end. *)
Example ten_hours_run :
  retrieve_data string_dec float_of_string
    (scripted [catalog; reply 200 [flat 60 "1"]; reply 200 [flat 18060 "2"]; reply 200 []])
    ten_hours fresh
  = (inr (Floats [Candle 60 1 1 1 1 1; Candle 18060 2 2 2 2 2]),
     {| remote := 4%nat;
        trace := [(GetProducts, catalog);
                  (GetCandles btc (Text 0) (Text 18000) "ONE_MINUTE" 600,
                   reply 200 [flat 60 "1"]);
                  (GetCandles btc (Text 18000) (Text 36000) "ONE_MINUTE" 600,
                   reply 200 [flat 18060 "2"]);
                  (GetCandles btc (Text 36000) (Text 54000) "ONE_MINUTE" 600,
                   reply 200 [])] |}).
Proof. vm_compute. reflexivity. Qed.

(** Ten hours of hourly candles: one request carrying Unix instants and
    the request volume as limit; the rows come back as parsed, sorted. *)
Example ten_hours_hourly_run :
  retrieve_data string_dec float_of_string
    (scripted [catalog; reply 200 [flat 7200 "2"; flat 3600 "1"; flat 40000 "9"]])
    ten_hours_hourly fresh
  = (inr (Parsed [flat 3600 "1"; flat 7200 "2"]),
     {| remote := 2%nat;
        trace := [(GetProducts, catalog);
                  (GetCandles btc (Unix 0) (Unix 36000) "ONE_HOUR" 10,
                   reply 200 [flat 7200 "2"; flat 3600 "1"; flat 40000 "9"])] |}).
Proof. vm_compute. reflexivity. Qed.

(** ** The properties of the specification *)

Lemma http_error_cases (c : Z) :
  (In c [400; 401; 404] -> http_error c = HTTPError c) /\
  (In c [403; 500; 501] -> http_error c = ConnectionError c) /\
  (~ In c [400; 401; 404; 403; 500; 501] -> http_error c = RequestException c).
Proof.
  unfold http_error, mem. simpl.
  repeat split; intros H.
  - destruct H as [<-|[<-|[<-|[]]]]; reflexivity.
  - destruct H as [<-|[<-|[<-|[]]]]; reflexivity.
  - repeat match goal with
           | |- context [?x =? ?y] => destruct (Z.eqb_spec x y); [exfalso; apply H; lia|]
           end.
    reflexivity.
Qed.

Section Claims.

Context {A F St : Type}.
Variable A_eq_dec : forall x y : A, {x = y} + {x <> y}.
Variable to_float : A -> option F.
Variable serve : St -> request -> response A * St.

Abbreviation retrieve := (retrieve_data A_eq_dec to_float serve).
Abbreviation world := (@world A St).

Lemma rows_to_float_cast (data : list (candle A)) :
  forall rows, rows_to_float to_float data = Some rows -> Forall2 (cast_of to_float) data rows.
Proof.
  induction data as [|c data IH]; simpl; intros rows H.
  - inversion H. constructor.
  - unfold candle_to_float in H.
    destruct (to_float (low c)) eqn:E1; [|discriminate].
    destruct (to_float (high c)) eqn:E2; [|discriminate].
    destruct (to_float (open c)) eqn:E3; [|discriminate].
    destruct (to_float (close c)) eqn:E4; [|discriminate].
    destruct (to_float (volume c)) eqn:E5; [|discriminate].
    destruct (rows_to_float to_float data) as [rest|]; [|discriminate].
    inversion H; subst. constructor; [|apply IH; reflexivity].
    unfold cast_of. simpl. auto 10.
Qed.

Lemma cast_times (data : list (candle A)) (rows : list (candle F)) :
  Forall2 (cast_of to_float) data rows -> map time rows = map time data.
Proof.
  induction 1 as [|c c' data rows Hc _ IH]; simpl; [reflexivity|].
  destruct Hc as [-> _]. rewrite IH. reflexivity.
Qed.

(** What does hold of every returned frame: its timestamps lie in the
    requested range and never decrease. *)
Lemma retrieved_bounded_sorted (self : HistoricalData) (w w' : world) (df : DataFrame A F) :
  retrieve self w = (inr df, w') ->
  Forall (fun t => start_date self <= t <= end_date self) (timestamps df) /\
  StronglySorted Z.le (timestamps df).
Proof.
  intros H. apply retrieve_data_run in H.
  destruct H as (r0 & k & new & _ & _ & _ & _ & _ & _ & _ & Hdf).
  set (rows := assemble A_eq_dec (start_date self) (end_date self) (fetched new)) in *.
  assert (T : timestamps df = map time rows).
  { destruct (request_volume self <=? 300).
    - subst df. reflexivity.
    - destruct Hdf as (fl & Hfl & ->). simpl.
      apply cast_times, rows_to_float_cast, Hfl. }
  rewrite T. split.
  - apply Forall_forall. intros t Ht. apply in_map_iff in Ht.
    destruct Ht as (c & <- & Hc). eapply assemble_in_window. exact Hc.
  - apply sorted_times, assemble_sorted.
Qed.

(** C1 (as amended).  For a valid range whose request volume exceeds 300, a
    successful retrieval sends, after the ticker check, exactly
    [floor(request_volume / 300) + 1] candle requests, in ascending order;
    every sub-window, the last included, spans [300 * granularity]
    seconds; each sub-window starts where the previous one ends; every
    sub-window but the last ends inside the range, and the last one is not
    truncated: it ends after the requested end instant. *)
Theorem chunked_plan (self : HistoricalData) (w w' : world) (df : DataFrame A F) :
  GRANULARITIES (granularity self) <> None ->
  start_date self < end_date self ->
  300 < request_volume self ->
  retrieve self w = (inr df, w') ->
  let n := Z.to_nat (request_volume self / 300 + 1) in
  let lo := provisional_start self in
  let hi := provisional_end self in
  exists r0 new,
    trace w' = trace w ++ (GetProducts, r0) :: new /\
    map fst new = map (chunk_request self (gname self)) (seq 0 n) /\
    map (fun x => window (fst x)) new = map (fun i => (lo i, hi i)) (seq 0 n) /\
    lo 0%nat = start_date self /\
    (forall i, (i < n)%nat -> hi i - lo i = 300 * granularity self) /\
    (forall i, (S i < n)%nat -> hi i = lo (S i) /\ hi i <= end_date self) /\
    end_date self < hi (n - 1)%nat.
Proof.
  intros G Hse Hrv H n lo hi.
  destruct (GRANULARITIES (granularity self)) as [name|] eqn:G'; [|congruence].
  pose proof (granularity_pos _ _ G') as Hg.
  assert (Hn : length (chunk_range self) = n) by (unfold chunk_range; apply length_seq).
  apply retrieve_data_run in H.
  destruct H as (r0 & k & new & Ht & Hr & _ & _ & -> & _).
  unfold planned in Hr. destruct (Z.leb_spec (request_volume self) 300) as [|_]; [lia|].
  rewrite firstn_all in Hr. fold n in Hr.
  exists r0, new. split; [exact Ht|]. split; [exact Hr|].
  split.
  { rewrite <- (map_map fst window), Hr, map_map. reflexivity. }
  split; [unfold lo, provisional_start; lia|].
  split; [intros i _; apply chunk_span|].
  split.
  - intros i Hi. split; [apply chunk_contiguous|].
    apply chunk_inner_end; [lia|exact Hse|rewrite Hn; exact Hi].
  - apply chunk_last_end; [lia|exact Hse|]. rewrite Hn.
    pose proof (chunk_range_length self ltac:(lia)) as L.
    pose proof (request_volume_nonneg self ltac:(lia)).
    assert (0 <= request_volume self / max_per_mssg)
      by (apply Z.div_pos; unfold max_per_mssg; lia).
    rewrite Hn in L. lia.
Qed.

(** C2 (as amended).  For a start and an end that [pd.Timestamp] can hold,
    the planner's count is the quotient [|end - start| / granularity]
    rounded down, not up; when the ticker check passes, the candle requests
    sent consist of one request over the whole window if and only if that
    count is at most 300. *)
Theorem single_request_iff (self : HistoricalData) (w w' : world)
    (res : exn + DataFrame A F) :
  GRANULARITIES (granularity self) <> None ->
  representable (start_date self) ->
  representable (end_date self) ->
  fst (ticker_checker serve self w) = inr tt ->
  retrieve self w = (res, w') ->
  (request_volume self * granularity self <= Z.abs (end_date self - start_date self)
   /\ Z.abs (end_date self - start_date self) < (request_volume self + 1) * granularity self)
  /\ exists r0 new,
       trace w' = trace w ++ (GetProducts, r0) :: new /\
       (map (fun x => window (fst x)) new = [(start_date self, end_date self)]
        <-> request_volume self <= 300).
Proof.
  intros G _ _ T H.
  destruct (GRANULARITIES (granularity self)) as [name|] eqn:G'; [|congruence].
  pose proof (granularity_pos _ _ G') as Hg.
  pose proof (request_volume_floor self ltac:(lia)) as Hfl.
  split; [exact Hfl|].
  apply retrieve_data_run in H.
  destruct H as (r0 & k & new & Ht & Hr & Hne & _).
  specialize (Hne T ltac:(congruence)).
  exists r0, new. split; [exact Ht|].
  unfold planned in Hr.
  destruct (Z.leb_spec (request_volume self) 300) as [Hle|Hgt].
  - split; [intros _; exact Hle|intros _].
    destruct new as [|x new]; [congruence|].
    destruct k as [|k]; [discriminate|].
    simpl in Hr. rewrite firstn_nil in Hr. injection Hr as Hx Hnew.
    apply map_eq_nil in Hnew. subst new. simpl. rewrite Hx. reflexivity.
  - split; [|lia]. intros Hw. exfalso.
    destruct new as [|x new]; [congruence|].
    unfold chunk_range in Hr.
    pose proof (request_volume_nonneg self ltac:(lia)).
    assert (0 <= request_volume self / max_per_mssg)
      by (apply Z.div_pos; unfold max_per_mssg; lia).
    destruct (Z.to_nat (request_volume self / max_per_mssg + 1)) as [|m] eqn:Em.
    { lia. }
    destruct k as [|k]; [discriminate|].
    simpl in Hr. injection Hr as Hx Hnew.
    cbn [map] in Hw. rewrite Hx in Hw.
    cbn [window chunk_request instant] in Hw. injection Hw as _ He _.
    unfold provisional_end, max_per_mssg in He.
    rewrite <- He in Hfl. rewrite Z.abs_eq in Hfl by lia.
    nia.
Qed.

(** C5.  A candle request answered with a status outside 200..204 is the
    last exchange of the retrieval (nothing is retried and no further chunk
    is requested), and the retrieval ends in the exception its status
    selects, so no fetched row is returned: 400/401/404 give [HTTPError],
    403/500/501 give [ConnectionError], any other status gives
    [RequestException]. *)
Theorem chunk_failure_aborts (self : HistoricalData) (w w' : world)
    (res : exn + DataFrame A F) (pre post : list (request * response A))
    (r : request) (resp : response A) :
  retrieve self w = (res, w') ->
  trace w' = trace w ++ pre ++ (r, resp) :: post ->
  is_candles r = true ->
  success (status_code resp) = false ->
  post = [] /\
  res = inl (http_error (status_code resp)) /\
  (In (status_code resp) [400; 401; 404] -> res = inl (HTTPError (status_code resp))) /\
  (In (status_code resp) [403; 500; 501] -> res = inl (ConnectionError (status_code resp))) /\
  (~ In (status_code resp) [400; 401; 404; 403; 500; 501] ->
   res = inl (RequestException (status_code resp))).
Proof.
  intros H Ht Hr Hbad.
  apply retrieve_data_run in H.
  destruct H as (r0 & k & new & Ht' & _ & _ & Hres).
  rewrite Ht' in Ht. apply app_inv_head in Ht.
  destruct pre as [|p pre]; simpl in Ht.
  { injection Ht as E _. inversion E; subst. discriminate. }
  injection Ht as _ Hnew.
  assert (Hshape : post = [] /\ res = inl (http_error (status_code resp))).
  { destruct res as [e|df].
    - destruct (error_status_is_last new pre post (r, resp) e Hres Hnew Hbad) as [-> Hab].
      split; [reflexivity|]. rewrite Hnew in Hab. apply aborted_last in Hab.
      subst e. reflexivity.
    - destruct Hres as (_ & _ & Hall & _). rewrite Hnew in Hall.
      apply Forall_app in Hall. destruct Hall as [_ Hall].
      inversion Hall as [|? ? Hx _]; subst. unfold ok in Hx. simpl in Hx. congruence. }
  destruct Hshape as [-> ->].
  pose proof (http_error_cases (status_code resp)) as (C1 & C2 & C3).
  repeat split; intros Hc; f_equal; auto.
Qed.

(** C7 (as amended).  When an end date is supplied and the start is not
    before it, the constructor raises a [ValueError] and nothing is sent to
    the remote API.  [retrieve_data] has no range check of its own: on an
    object whose start equals its end the request volume is 0, the ticker
    check request is sent, and when that check passes one candles request
    over the empty window with limit 0 follows. *)
Theorem range_check_in_init_only (now : Z) (tk : string) (g s e : Z) (v : bool)
    (self : HistoricalData) (w : world) :
  (s >= e ->
   exists why,
     run A_eq_dec to_float serve now tk g s (Some e) v w = (inl (ValueError why), w)) /\
  (start_date self = end_date self ->
   request_volume self = 0 /\
   exists r0 new,
     trace (snd (retrieve self w)) = trace w ++ (GetProducts, r0) :: new /\
     (fst (ticker_checker serve self w) = inr tt ->
      GRANULARITIES (granularity self) <> None ->
      map fst new =
        [GetCandles (ticker self) (Unix (start_date self)) (Unix (start_date self))
           (gname self) 0])).
Proof.
  split.
  - intros Hse. unfold run, init.
    destruct (GRANULARITIES g); [|eexists; reflexivity].
    destruct (Z.geb_spec s e) as [_|]; [|lia]. eexists; reflexivity.
  - intros Heq.
    assert (Hrv : request_volume self = 0).
    { unfold request_volume. rewrite Heq, Z.sub_diag. reflexivity. }
    split; [exact Hrv|].
    destruct (retrieve self w) as [res w'] eqn:H.
    apply retrieve_data_run in H.
    destruct H as (r0 & k & new & Ht & Hr & Hne & _).
    exists r0, new. split; [exact Ht|].
    intros T G. specialize (Hne T G).
    unfold planned, single_request in Hr. rewrite Hrv, <- Heq in Hr. simpl in Hr.
    destruct new as [|x new]; [congruence|].
    destruct k as [|k]; [discriminate|].
    simpl in Hr. rewrite firstn_nil in Hr. exact Hr.
Qed.

(** C10.  The two paths hand back frames of different kinds: a successful
    retrieval of at most 300 candles returns the assembled rows as parsed,
    one of more than 300 candles returns them after the cast of every value
    column to float. *)
Theorem float_cast_only_when_chunked (self : HistoricalData) (w w' : world)
    (df : DataFrame A F) :
  retrieve self w = (inr df, w') ->
  exists r0 new,
    trace w' = trace w ++ (GetProducts, r0) :: new /\
    let data := assemble A_eq_dec (start_date self) (end_date self) (fetched new) in
    (request_volume self <= 300 -> df = Parsed data) /\
    (300 < request_volume self ->
     exists rows, df = Floats rows /\ Forall2 (cast_of to_float) data rows) /\
    ((exists rows, df = Floats rows) <-> 300 < request_volume self).
Proof.
  intros H. apply retrieve_data_run in H.
  destruct H as (r0 & k & new & Ht & _ & _ & _ & _ & _ & _ & Hdf).
  exists r0, new. split; [exact Ht|].
  destruct (Z.leb_spec (request_volume self) 300) as [Hle|Hgt].
  - subst df. repeat split; try lia; auto.
    intros (rows & E). discriminate.
  - destruct Hdf as (rows & Hrows & ->). repeat split; try lia.
    + intros _. exists rows. split; [reflexivity|].
      apply rows_to_float_cast, Hrows.
    + exists rows. reflexivity.
Qed.

End Claims.

(** ** The claims at concrete requests *)

Abbreviation retrieve_str := (retrieve_data string_dec float_of_string).

(** [chunked_plan] at ten hours of one-minute candles. *)
Lemma chunked_plan_witness :
  let out := retrieve_str (scripted two_candles) ten_hours fresh in
  (GRANULARITIES (granularity ten_hours) <> None /\
   start_date ten_hours < end_date ten_hours /\
   300 < request_volume ten_hours /\
   out = (inr (Floats [Candle 60 1 1 1 1 1; Candle 18060 2 2 2 2 2]), snd out)) /\
  exists r0 new,
    trace (snd out) = trace fresh ++ (GetProducts, r0) :: new /\
    map fst new = map (chunk_request ten_hours (gname ten_hours)) (seq 0 3) /\
    map (fun x => window (fst x)) new
      = map (fun i => (provisional_start ten_hours i, provisional_end ten_hours i)) (seq 0 3) /\
    provisional_start ten_hours 0 = start_date ten_hours /\
    (forall i, (i < 3)%nat ->
       provisional_end ten_hours i - provisional_start ten_hours i
       = 300 * granularity ten_hours) /\
    (forall i, (S i < 3)%nat ->
       provisional_end ten_hours i = provisional_start ten_hours (S i) /\
       provisional_end ten_hours i <= end_date ten_hours) /\
    end_date ten_hours < provisional_end ten_hours 2.
Proof.
  intros out.
  assert (G : GRANULARITIES (granularity ten_hours) <> None) by (vm_compute; discriminate).
  assert (Hse : start_date ten_hours < end_date ten_hours) by reflexivity.
  assert (Hrv : 300 < request_volume ten_hours) by reflexivity.
  assert (Hout : out = (inr (Floats [Candle 60 1 1 1 1 1; Candle 18060 2 2 2 2 2]), snd out))
    by (vm_compute; reflexivity).
  split; [auto|].
  exact (chunked_plan string_dec float_of_string (scripted two_candles)
           ten_hours fresh (snd out) _ G Hse Hrv Hout).
Defined.

(** C1, as stated, fails: the retrieval of [ten_hours] succeeds, yet not
    every sub-window it requested ends at or before the requested end. *)
Lemma last_window_not_truncated :
  let out := retrieve_str (scripted two_candles) ten_hours fresh in
  (exists df, fst out = inr df) /\
  ~ (forall lo hi, In (lo, hi) (candle_windows (trace (snd out))) ->
                   hi <= end_date ten_hours).
Proof.
  intros out. split; [eexists; vm_compute; reflexivity|].
  intros H. specialize (H 36000 54000).
  assert (I : In (36000, 54000) (candle_windows (trace (snd out))))
    by (vm_compute; auto).
  specialize (H I). vm_compute in H. apply H. reflexivity.
Qed.

(** [single_request_iff] at 1501 minutes of five-minute candles. *)
Lemma single_request_iff_witness :
  let out := retrieve_str (scripted [catalog; reply 200 [flat 300 "1"]])
               five_minute_day fresh in
  (GRANULARITIES (granularity five_minute_day) <> None /\
   representable (start_date five_minute_day) /\
   representable (end_date five_minute_day) /\
   fst (ticker_checker (scripted [catalog; reply 200 [flat 300 "1"]])
          five_minute_day fresh) = inr tt) /\
  (request_volume five_minute_day * granularity five_minute_day
     <= Z.abs (end_date five_minute_day - start_date five_minute_day)
   /\ Z.abs (end_date five_minute_day - start_date five_minute_day)
      < (request_volume five_minute_day + 1) * granularity five_minute_day)
  /\ exists r0 new,
       trace (snd out) = trace fresh ++ (GetProducts, r0) :: new /\
       (map (fun x => window (fst x)) new
          = [(start_date five_minute_day, end_date five_minute_day)]
        <-> request_volume five_minute_day <= 300).
Proof.
  intros out.
  assert (G : GRANULARITIES (granularity five_minute_day) <> None)
    by (vm_compute; discriminate).
  assert (T : fst (ticker_checker (scripted [catalog; reply 200 [flat 300 "1"]])
                     five_minute_day fresh) = inr tt) by (vm_compute; reflexivity).
  assert (Rs : representable (start_date five_minute_day))
    by (unfold representable, Timestamp_min, Timestamp_max; simpl; lia).
  assert (Re : representable (end_date five_minute_day))
    by (unfold representable, Timestamp_min, Timestamp_max; simpl; lia).
  split; [auto|].
  exact (single_request_iff string_dec float_of_string
           (scripted [catalog; reply 200 [flat 300 "1"]])
           five_minute_day fresh (snd out) (fst out) G Rs Re T
           (surjective_pairing out)).
Defined.

(** C2, as stated, fails: for 1501 minutes of five-minute candles the
    planner's count is 300 while the quotient rounded up is 301, and a
    single request over the whole window is sent although the rounded-up
    count exceeds 300. *)
Lemma count_is_not_the_ceiling :
  let out := retrieve_str (scripted [catalog; reply 200 [flat 300 "1"]])
               five_minute_day fresh in
  request_volume five_minute_day <> expected_count_spec five_minute_day /\
  ~ (candle_windows (trace (snd out))
       = [(start_date five_minute_day, end_date five_minute_day)]
     <-> expected_count_spec five_minute_day <= 300).
Proof.
  intros out. split; [vm_compute; discriminate|].
  intros [H _].
  assert (E : candle_windows (trace (snd out))
              = [(start_date five_minute_day, end_date five_minute_day)])
    by (vm_compute; reflexivity).
  specialize (H E). vm_compute in H. apply H. reflexivity.
Qed.

(** C3: the code departs from the claim.  Two chunks deliver the candle of
    instant 18000 with different values; the retrieval succeeds and the
    returned frame lists that timestamp twice, so its timestamps are
    neither unique nor strictly increasing. *)
Theorem repeated_timestamp_returned :
  let out := retrieve_str (scripted boundary_twice) ten_hours fresh in
  fst out = inr (Floats [Candle 18000 100 100 100 100 100;
                         Candle 18000 101 101 101 101 101]) /\
  (forall df, fst out = inr df ->
     timestamps df = [18000; 18000] /\
     ~ NoDup (timestamps df) /\ ~ StronglySorted Z.lt (timestamps df)).
Proof.
  intros out.
  assert (E : fst out = inr (Floats [Candle 18000 100 100 100 100 100;
                                     Candle 18000 101 101 101 101 101]))
    by (vm_compute; reflexivity).
  split; [exact E|].
  intros df H. rewrite E in H. injection H as <-. simpl.
  split; [reflexivity|]. split; intros N.
  - inversion N as [|? ? Hin _]; subst. apply Hin. left. reflexivity.
  - inversion N as [|? ? _ Hall]; subst. inversion Hall as [|? ? Hlt _]; subst. lia.
Qed.

(** C4: the code departs from the claim.  Two candles of different
    timestamps and equal value columns: the specification's assembler keeps
    both, the code keeps the earlier one only. *)
Theorem equal_values_dropped :
  let chunks := [[flat 60 "7"]; [flat 120 "7"]] in
  assemble string_dec 0 600 (concat chunks) = [flat 60 "7"] /\
  assemble_spec 0 600 chunks = [flat 60 "7"; flat 120 "7"] /\
  assemble string_dec 0 600 (concat chunks) <> assemble_spec 0 600 chunks.
Proof.
  intros chunks. repeat split; try (vm_compute; reflexivity).
  vm_compute. discriminate.
Qed.

(** [chunk_failure_aborts] when the second chunk is answered with 404: the
    first chunk's candle is not returned, [HTTPError] is raised. *)
Lemma chunk_failure_aborts_witness :
  let out := retrieve_str (scripted not_found_second) ten_hours fresh in
  let first := (GetCandles btc (Text 0) (Text 18000) "ONE_MINUTE" 600,
                reply 200 [flat 60 "1"]) in
  let second := GetCandles btc (Text 18000) (Text 36000) "ONE_MINUTE" 600 in
  (trace (snd out)
     = trace fresh ++ [(GetProducts, catalog); first] ++ (second, reply 404 []) :: [] /\
   is_candles second = true /\
   success (status_code (reply 404 [])) = false) /\
  fst out = inl (HTTPError 404).
Proof.
  intros out first second.
  assert (Ht : trace (snd out)
     = trace fresh ++ [(GetProducts, catalog); first] ++ (second, reply 404 []) :: [])
    by (vm_compute; reflexivity).
  assert (Hc : is_candles second = true) by reflexivity.
  assert (Hs : success (status_code (reply 404 [])) = false) by reflexivity.
  split; [auto|].
  destruct (chunk_failure_aborts string_dec float_of_string (scripted not_found_second)
              ten_hours fresh (snd out) (fst out) _ [] second (reply 404 [])
              (surjective_pairing out) Ht Hc Hs) as (_ & _ & H & _).
  apply H. simpl. auto.
Defined.

(** C6: the code departs from the claim.  When every chunk is answered
    with a success that holds no candle, the chunk loop does run through
    all three chunks, but naming the columns of the frame without rows
    raises [ValueError]; so does the single-request path on an empty
    answer. *)
Theorem empty_answers_raise :
  let out := retrieve_str (scripted no_candles) ten_hours fresh in
  let one := retrieve_str (scripted [catalog; reply 200 []]) ten_hours_hourly fresh in
  fst out = inl (ValueError LengthMismatch) /\
  map snd (trace (snd out)) = no_candles /\
  fst one = inl (ValueError LengthMismatch) /\
  map snd (trace (snd one)) = [catalog; reply 200 []].
Proof. intros out one. repeat split; vm_compute; reflexivity. Qed.

(** [range_check_in_init_only] at start = end = 120. *)
Lemma range_check_in_init_only_witness :
  let api := scripted [catalog; reply 200 [flat 120 "5"]] in
  let self := {| ticker := btc; granularity := 60; start_date := 120;
                 end_date := 120; verbose := false |} in
  (120 >= 120 /\ start_date self = end_date self) /\
  (exists why,
     run string_dec float_of_string api 0 btc 60 120 (Some 120) false fresh
     = (inl (ValueError why), fresh)) /\
  request_volume self = 0.
Proof.
  intros api self.
  assert (H1 : 120 >= 120) by lia.
  assert (H2 : start_date self = end_date self) by reflexivity.
  split; [auto|].
  destruct (range_check_in_init_only string_dec float_of_string api
              0 btc 60 120 120 false self fresh) as [Hinit Hret].
  split; [exact (Hinit H1)|exact (proj1 (Hret H2))].
Defined.

(** C7, as stated, fails: an object built without an end date while the
    clock reads the minute of its start date has start equal to end; no
    validation error is raised, the ticker check and one candles request
    are sent, and a frame is returned. *)
Lemma equal_dates_not_rejected :
  let api := scripted [catalog; reply 200 [flat 120 "5"]] in
  let out := run string_dec float_of_string api 125 btc 60 120 None false fresh in
  (exists self, init 125 btc 60 120 None false = inr self /\
                start_date self = end_date self) /\
  ~ (exists why, fst out = inl (ValueError why) /\ trace (snd out) = []) /\
  fst out = inr (Parsed [flat 120 "5"]) /\
  map fst (trace (snd out))
    = [GetProducts; GetCandles btc (Unix 120) (Unix 120) "ONE_MINUTE" 0].
Proof.
  intros api out. split; [eexists; split; vm_compute; reflexivity|].
  split; [|split; vm_compute; reflexivity].
  intros (why & H & _). vm_compute in H. discriminate.
Qed.

(** C8: the code departs from the claim.  Each of the three chunk requests
    for ten hours of one-minute candles carries the overall request volume
    600 as its limit, above the cap of 300. *)
Theorem chunk_limit_above_cap :
  let out := retrieve_str (scripted two_candles) ten_hours fresh in
  candle_limits (trace (snd out)) = [600; 600; 600] /\
  Forall (fun l => max_per_mssg < l) (candle_limits (trace (snd out))).
Proof.
  intros out.
  assert (E : candle_limits (trace (snd out)) = [600; 600; 600])
    by (vm_compute; reflexivity).
  split; [exact E|]. rewrite E. repeat constructor.
Qed.

(** C9: the code departs from the claim.  Chunk outputs that hold two
    records of one timestamp with different values, concatenated twice over
    and assembled: both records are kept, whatever order the sort leaves
    them in, so the timestamp 60 stands twice in the frame instead of being
    collapsed to the record seen first. *)
Theorem repeated_timestamp_not_collapsed :
  let chunks := [[flat 60 "1"; flat 60 "2"]] in
  let twice := assemble string_dec 0 600 (concat (chunks ++ chunks)) in
  map time twice = [60; 60] /\
  In (flat 60 "1") twice /\ In (flat 60 "2") twice /\
  ~ NoDup (map time twice).
Proof.
  intros chunks twice.
  assert (E : twice = [flat 60 "1"; flat 60 "2"]) by (vm_compute; reflexivity).
  rewrite E. simpl. repeat split; auto.
  intros N. inversion N as [|? ? Hin _]; subst. apply Hin. left. reflexivity.
Qed.

(** [float_cast_only_when_chunked] at ten hours of one-minute candles. *)
Lemma float_cast_only_when_chunked_witness :
  let out := retrieve_str (scripted two_candles) ten_hours fresh in
  out = (inr (Floats [Candle 60 1 1 1 1 1; Candle 18060 2 2 2 2 2]), snd out) /\
  300 < request_volume ten_hours.
Proof.
  intros out.
  assert (Hout : out = (inr (Floats [Candle 60 1 1 1 1 1; Candle 18060 2 2 2 2 2]), snd out))
    by (vm_compute; reflexivity).
  split; [exact Hout|].
  destruct (float_cast_only_when_chunked string_dec float_of_string (scripted two_candles)
              ten_hours fresh (snd out) _ Hout) as (r0 & new & _ & _ & _ & Hiff).
  apply Hiff. eexists. reflexivity.
Defined.

(** ** Further properties of [HistoricalData] *)

(** The sub-windows of the chunk loop leave no instant of the requested
    range out: every instant from start to end lies in the sub-window of
    some chunk the loop runs through. *)
Theorem chunk_windows_cover (self : HistoricalData) (t : Z) :
  0 < granularity self ->
  start_date self <= t <= end_date self ->
  exists i, In i (chunk_range self) /\
            provisional_start self i <= t < provisional_end self i.
Proof.
  intros Hg Ht.
  set (span := granularity self * max_per_mssg).
  assert (Hspan : 0 < span) by (unfold span, max_per_mssg; lia).
  set (q := (t - start_date self) / span).
  assert (Hq : 0 <= q) by (apply Z.div_pos; lia).
  pose proof (Z.div_mod (t - start_date self) span ltac:(lia)) as E.
  pose proof (Z.mod_pos_bound (t - start_date self) span Hspan) as B.
  fold q in E.
  assert (Hle : q <= request_volume self / max_per_mssg).
  { unfold request_volume. rewrite Z.abs_eq by lia.
    rewrite Z.div_div by (unfold max_per_mssg; lia). fold span.
    apply Z.div_le_mono; lia. }
  exists (Z.to_nat q). split.
  - unfold chunk_range. apply in_seq. lia.
  - unfold provisional_start, provisional_end. fold span.
    rewrite Z2Nat.id by lia. nia.
Qed.

Lemma chunk_windows_cover_witness :
  (0 < granularity ten_hours /\ start_date ten_hours <= 20000 <= end_date ten_hours) /\
  exists i, In i (chunk_range ten_hours) /\
            provisional_start ten_hours i <= 20000 < provisional_end ten_hours i.
Proof.
  assert (Hg : 0 < granularity ten_hours) by reflexivity.
  assert (Ht : start_date ten_hours <= 20000 <= end_date ten_hours)
    by (vm_compute; split; discriminate).
  split; [auto|]. exact (chunk_windows_cover ten_hours 20000 Hg Ht).
Defined.

(** [__init__] returns an object exactly when the granularity is one of
    the eight keys of the table and, if an end date is given, the start
    lies strictly before it; the object then carries the arguments, with
    the clock cut to the minute as end date when none is given, which is at
    most 59 seconds behind the clock. *)
Theorem init_accepts_iff (now : Z) (tk : string) (g s : Z) (e : option Z) (v : bool) :
  ((exists self, init now tk g s e v = inr self) <->
   In g [60; 300; 900; 1800; 3600; 7200; 21600; 86400] /\
   match e with Some e' => s < e' | None => True end) /\
  (forall self, init now tk g s e v = inr self ->
     ticker self = tk /\ granularity self = g /\ start_date self = s /\
     end_date self = match e with Some e' => e' | None => today_minute now end) /\
  (now - 59 <= today_minute now <= now).
Proof.
  assert (G : GRANULARITIES g <> None <->
              In g [60; 300; 900; 1800; 3600; 7200; 21600; 86400]).
  { unfold GRANULARITIES. simpl.
    repeat match goal with
           | |- context [?x =? ?y] =>
               destruct (Z.eqb_spec x y); [split; [intros _; lia|discriminate]|]
           end.
    split; [congruence|lia]. }
  split; [|split].
  - unfold init. split.
    + intros (self & H).
      destruct (GRANULARITIES g) eqn:Eg; [|discriminate].
      split; [apply G; discriminate|].
      destruct e as [e'|]; [|exact I].
      destruct (Z.geb_spec s e'); [discriminate|lia].
    + intros (Hg & He). apply G in Hg.
      destruct (GRANULARITIES g); [|congruence].
      destruct e as [e'|]; [|eexists; reflexivity].
      destruct (Z.geb_spec s e'); [lia|eexists; reflexivity].
  - intros self H. unfold init in H.
    destruct (GRANULARITIES g); [|discriminate].
    destruct e as [e'|].
    + destruct (s >=? e'); [discriminate|]. inversion H; subst. simpl. auto.
    + inversion H; subst. simpl. auto.
  - unfold today_minute.
    pose proof (Z.div_mod now 60 ltac:(lia)).
    pose proof (Z.mod_pos_bound now 60 ltac:(lia)). lia.
Qed.

Section MoreRetrieval.

Context {A F St : Type}.
Variable A_eq_dec : forall x y : A, {x = y} + {x <> y}.
Variable to_float : A -> option F.
Variable serve : St -> request -> response A * St.

Abbreviation retrieve := (retrieve_data A_eq_dec to_float serve).
Abbreviation world := (@world A St).

(** Whatever the remote API answers, [retrieve_data] sends the catalog
    request first and then a prefix of the candle requests of its plan, in
    the plan's order: never a candles request before the ticker check, never
    one outside the plan, never one twice; so at most 2 requests for up to
    300 candles and at most [request_volume / 300 + 2] otherwise. *)
Theorem requests_follow_plan (self : HistoricalData) (w : world) :
  exists r0 k new,
    trace (snd (retrieve self w)) = trace w ++ (GetProducts, r0) :: new /\
    map fst new = firstn k (planned self) /\
    Z.of_nat (length new)
      <= (if request_volume self <=? 300 then 1 else request_volume self / 300 + 1).
Proof.
  destruct (retrieve self w) as [res w'] eqn:H.
  apply retrieve_data_run in H.
  destruct H as (r0 & k & new & Ht & Hr & _).
  exists r0, k, new. split; [exact Ht|]. split; [exact Hr|].
  assert (L : (length new <= length (planned self))%nat).
  { rewrite <- (length_map fst new), Hr, length_firstn. lia. }
  unfold planned in L.
  destruct (Z.leb_spec (request_volume self) 300) as [_|Hgt].
  - simpl in L. lia.
  - rewrite length_map in L. unfold chunk_range in L. rewrite length_seq in L.
    unfold max_per_mssg in L.
    assert (0 <= request_volume self / 300) by (apply Z.div_pos; lia).
    lia.
Qed.

(** When the catalog request is answered with an error status, or the
    catalog does not list the ticker, [retrieve_data] stops there: no
    candles request is sent, and the exception is the one the status
    selects, the [KeyError] of a success answer whose catalog is empty, or
    the [ValueError] for a ticker missing from a catalog that has
    products. *)
Theorem ticker_check_gates_candles (self : HistoricalData) (w : world)
    (r0 : response A) (s1 : St) :
  serve (remote w) GetProducts = (r0, s1) ->
  success (status_code r0) = false \/ ~ In (ticker self) (ids r0) ->
  retrieve self w
  = (inl (if success (status_code r0)
          then match ids r0 with
               | [] => KeyError
               | _ :: _ => ValueError TickerNotAvailable
               end
          else http_error (status_code r0)),
     {| remote := s1; trace := trace w ++ [(GetProducts, r0)] |}).
Proof.
  intros Hs Hbad.
  unfold retrieve_data, bind, ticker_checker, bind, requests_get. rewrite Hs.
  destruct (success (status_code r0)) eqn:Hok.
  - destruct (ids r0) as [|i l] eqn:Ei; [reflexivity|].
    destruct (in_dec string_dec (ticker self) (i :: l)) as [Hin|_].
    + destruct Hbad as [Hf|Hn]; [discriminate|contradiction].
    + reflexivity.
  - reflexivity.
Qed.

(** A frame is returned only if some answer delivered at least one candle
    row: when every answer of a retrieval is without rows, the retrieval
    ends in an exception. *)
Theorem no_rows_no_frame (self : HistoricalData) (w w' : world)
    (res : exn + DataFrame A F) (new : list (request * response A)) :
  retrieve self w = (res, w') ->
  trace w' = trace w ++ new ->
  Forall (fun x => candles (snd x) = []) new ->
  exists e, res = inl e.
Proof.
  intros H Ht Hall.
  apply retrieve_data_run in H.
  destruct H as (r0 & k & new' & Ht' & _ & _ & Hres).
  destruct res as [e|df]; [eauto|exfalso].
  destruct Hres as (_ & _ & _ & Hne & _). apply Hne.
  rewrite Ht' in Ht. apply app_inv_head in Ht. subst new.
  inversion Hall as [|? ? _ Hall']; subst. clear - Hall'.
  unfold fetched. induction Hall' as [|x l Hx _ IH]; simpl; [reflexivity|].
  rewrite Hx, IH. reflexivity.
Qed.

(** When the end date lies before the start date (an object built without
    end date for a start date in the future), every frame [retrieve_data]
    returns is empty, whatever the remote API delivered. *)
Theorem reversed_range_empty_frame (self : HistoricalData) (w w' : world)
    (df : DataFrame A F) :
  end_date self < start_date self ->
  retrieve self w = (inr df, w') ->
  timestamps df = [].
Proof.
  intros Hrev H. apply retrieve_data_run in H.
  destruct H as (r0 & k & new & _ & _ & _ & _ & _ & _ & _ & Hdf).
  assert (E : assemble A_eq_dec (start_date self) (end_date self) (fetched new) = []).
  { destruct (assemble A_eq_dec (start_date self) (end_date self) (fetched new))
      as [|c rows] eqn:Ea; [reflexivity|].
    assert (Hc : In c (assemble A_eq_dec (start_date self) (end_date self) (fetched new)))
      by (rewrite Ea; left; reflexivity).
    apply assemble_in_window in Hc. lia. }
  rewrite E in Hdf.
  destruct (request_volume self <=? 300).
  - subst df. reflexivity.
  - destruct Hdf as (rows & Hrows & ->). simpl in Hrows. inversion Hrows. reflexivity.
Qed.

(** Every candles request of a retrieval carries the ticker of the object
    and, as its limit, the overall request volume, on the chunked path as
    on the single-request path. *)
Theorem every_request_carries_volume (self : HistoricalData) (w w' : world)
    (res : exn + DataFrame A F) (new : list (request * response A))
    (r : request) (resp : response A) :
  retrieve self w = (res, w') ->
  trace w' = trace w ++ new ->
  In (r, resp) new ->
  is_candles r = true ->
  limit_of r = request_volume self /\
  exists s e name, r = GetCandles (ticker self) s e name (request_volume self).
Proof.
  intros H Ht Hin Hc.
  apply retrieve_data_run in H.
  destruct H as (r0 & k & new' & Ht' & Hr & _).
  rewrite Ht' in Ht. apply app_inv_head in Ht. subst new.
  destruct Hin as [E|Hin]; [inversion E; subst; discriminate|].
  assert (Hp : In r (planned self)).
  { apply (in_map fst) in Hin. simpl in Hin. rewrite Hr in Hin.
    rewrite <- (firstn_skipn k (planned self)). apply in_or_app. left. exact Hin. }
  unfold planned in Hp. destruct (request_volume self <=? 300).
  - destruct Hp as [<-|[]]. split; [reflexivity|]. unfold single_request. eauto.
  - apply in_map_iff in Hp. destruct Hp as (i & <- & _).
    split; [reflexivity|]. unfold chunk_request. eauto.
Qed.

End MoreRetrieval.

Section MoreAssembly.

Context {A : Type}.
Variable A_eq_dec : forall x y : A, {x = y} + {x <> y}.

Lemma drop_dups_keeps_earliest (l : list (candle A)) :
  StronglySorted time_le l ->
  forall seen c, In c l -> ~ In (values c) seen ->
  exists d, In d (drop_dups A_eq_dec seen l) /\ values d = values c /\ time d <= time c.
Proof.
  induction 1 as [|x l Hs IH Hx]; intros seen c Hc Hfresh; [contradiction|].
  simpl. destruct (in_dec _ (values x) seen) as [I|N].
  - destruct Hc as [<-|Hc]; [contradiction|]. apply IH; assumption.
  - destruct (values_eq_dec A_eq_dec (values c) (values x)) as [E|NE].
    + exists x. split; [left; reflexivity|]. split; [congruence|].
      destruct Hc as [<-|Hc]; [lia|].
      rewrite Forall_forall in Hx. apply (Hx c Hc).
    + destruct Hc as [<-|Hc]; [congruence|].
      destruct (IH (values x :: seen) c Hc) as (d & Hd & Hv & Ht).
      * intros [E|I]; [congruence|contradiction].
      * exists d. split; [right; exact Hd|]. auto.
Qed.

(** What the assembly keeps and what it drops: every row of the frame is a
    delivered row inside the window; no two rows of the frame have the same
    value columns; and every delivered row inside the window is represented
    in the frame by a row of the same value columns whose timestamp is not
    later. *)
Theorem assemble_keeps_earliest (start end_ : Z) (data : list (candle A)) :
  (forall d, In d (assemble A_eq_dec start end_ data) ->
             In d data /\ start <= time d <= end_) /\
  NoDup (map values (assemble A_eq_dec start end_ data)) /\
  (forall c, In c data -> start <= time c <= end_ ->
     exists d, In d (assemble A_eq_dec start end_ data) /\
               values d = values c /\ time d <= time c).
Proof.
  unfold assemble, drop_duplicates. split; [|split].
  - intros d Hd. apply drop_dups_In, sort_index_In, between_In in Hd. exact Hd.
  - apply drop_dups_fresh.
  - intros c Hc Hw. apply drop_dups_keeps_earliest.
    + apply sort_index_sorted.
    + apply sort_index_In, between_In. auto.
    + intros [].
Qed.

End MoreAssembly.

(** [retrieved_bounded_sorted] on ten hours of one-minute candles whose
    remote API also delivers a candle past the end. *)
Lemma retrieved_bounded_sorted_witness :
  let api := scripted [catalog; reply 200 [flat 18060 "2"; flat 60 "1"];
                       reply 200 [flat 99999 "3"]; reply 200 []] in
  let out := retrieve_data string_dec float_of_string api ten_hours fresh in
  out = (inr (Floats [Candle 60 1 1 1 1 1; Candle 18060 2 2 2 2 2]), snd out) /\
  Forall (fun t => 0 <= t <= 36000) [60; 18060] /\
  StronglySorted Z.le [60; 18060].
Proof.
  intros api out.
  assert (Hout : out = (inr (Floats [Candle 60 1 1 1 1 1; Candle 18060 2 2 2 2 2]), snd out))
    by (vm_compute; reflexivity).
  split; [exact Hout|].
  exact (retrieved_bounded_sorted string_dec float_of_string api
           ten_hours fresh (snd out) _ Hout).
Defined.

(** An object whose start date lies ten hours after its end date. *)
Lemma reversed_range_empty_frame_witness :
  let self := {| ticker := btc; granularity := 3600; start_date := 36000;
                 end_date := 0; verbose := false |} in
  let api := scripted [catalog; reply 200 [flat 3600 "1"; flat 7200 "2"]] in
  let out := retrieve_data string_dec float_of_string api self fresh in
  (end_date self < start_date self /\ out = (inr (Parsed []), snd out)) /\
  timestamps (A := string) (F := Z) (Parsed []) = [].
Proof.
  intros self api out.
  assert (Hrev : end_date self < start_date self) by reflexivity.
  assert (Hout : out = (inr (Parsed []), snd out)) by (vm_compute; reflexivity).
  split; [auto|].
  exact (reversed_range_empty_frame string_dec float_of_string api
           self fresh (snd out) _ Hrev Hout).
Defined.

(** The catalog does not list the ticker; and a catalog without any
    product. *)
Lemma ticker_check_gates_candles_witness :
  let self := {| ticker := "DOGE-USD"%string; granularity := 60; start_date := 0;
                 end_date := 36000; verbose := false |} in
  let api := scripted two_candles in
  let bare := scripted [reply 200 []] in
  (api 0%nat GetProducts = (catalog, 1%nat) /\
   (success (status_code catalog) = false \/ ~ In (ticker self) (ids catalog))) /\
  retrieve_data string_dec float_of_string api self fresh
  = (inl (ValueError TickerNotAvailable),
     {| remote := 1%nat; trace := [(GetProducts, catalog)] |}) /\
  retrieve_data string_dec float_of_string bare ten_hours fresh
  = (inl KeyError,
     {| remote := 1%nat; trace := [(GetProducts, reply 200 [])] |}).
Proof.
  intros self api bare.
  assert (Hs : api (remote fresh) GetProducts = (catalog, 1%nat)) by reflexivity.
  assert (Hbad : success (status_code catalog) = false \/ ~ In (ticker self) (ids catalog)).
  { right. simpl. intros [H|[H|[]]]; discriminate. }
  split; [auto|]. split.
  - exact (ticker_check_gates_candles string_dec float_of_string api self fresh
             catalog 1%nat Hs Hbad).
  - refine (ticker_check_gates_candles string_dec float_of_string bare ten_hours fresh
              (reply 200 []) 1%nat eq_refl _).
    right. simpl. tauto.
Defined.

(** Every answer is a success without rows. *)
Lemma no_rows_no_frame_witness :
  let out := retrieve_data string_dec float_of_string (scripted no_candles)
               ten_hours fresh in
  (trace (snd out) = trace fresh ++ trace (snd out) /\
   Forall (fun x => candles (snd x) = []) (trace (snd out))) /\
  exists e, fst out = inl e.
Proof.
  intros out.
  assert (Ht : trace (snd out) = trace fresh ++ trace (snd out)) by reflexivity.
  assert (Hall : Forall (fun x => candles (snd x) = []) (trace (snd out)))
    by (vm_compute; repeat constructor).
  split; [auto|].
  exact (no_rows_no_frame string_dec float_of_string (scripted no_candles)
           ten_hours fresh (snd out) (fst out) _ (surjective_pairing out) Ht Hall).
Defined.

(** The second chunk request of ten hours of one-minute candles. *)
Lemma every_request_carries_volume_witness :
  let out := retrieve_data string_dec float_of_string (scripted two_candles)
               ten_hours fresh in
  let r := GetCandles btc (Text 18000) (Text 36000) "ONE_MINUTE" 600 in
  (trace (snd out) = trace fresh ++ trace (snd out) /\
   In (r, reply 200 [flat 18060 "2"]) (trace (snd out)) /\
   is_candles r = true) /\
  limit_of r = request_volume ten_hours.
Proof.
  intros out r.
  assert (Ht : trace (snd out) = trace fresh ++ trace (snd out)) by reflexivity.
  assert (Hin : In (r, reply 200 [flat 18060 "2"]) (trace (snd out)))
    by (vm_compute; auto).
  assert (Hc : is_candles r = true) by reflexivity.
  split; [auto|].
  exact (proj1 (every_request_carries_volume string_dec float_of_string
                  (scripted two_candles) ten_hours fresh (snd out) (fst out) _ r _
                  (surjective_pairing out) Ht Hin Hc)).
Defined.

(** ** Properties of [_date_cleaner] *)

Lemma zfill_two (n : nat) :
  (n <= 99)%nat -> exists a b, Dates.zfill 2 n = String a (String b EmptyString).
Proof.
  intros Hn.
  assert (H : forallb (fun n => two_chars (Dates.zfill 2 n)) (seq 0 100) = true)
    by (vm_compute; reflexivity).
  rewrite forallb_forall in H. specialize (H n ltac:(apply in_seq; lia)).
  destruct (Dates.zfill 2 n) as [|a [|b [|]]]; try discriminate. eauto.
Qed.

Lemma year_four (n : nat) :
  1000 <= Z.of_nat n <= 9999 ->
  Dates.zfill 4 n = Dates.decimal n /\
  exists a b c d,
    Dates.decimal n = String a (String b (String c (String d EmptyString))).
Proof.
  intros Hn.
  assert (H : forallb (fun n => four_chars (Dates.decimal n)
                                && String.eqb (Dates.zfill 4 n) (Dates.decimal n))
                (seq (10 * 100) (90 * 100)) = true)
    by (vm_compute; reflexivity).
  rewrite forallb_forall in H. specialize (H n ltac:(apply in_seq; lia)).
  apply andb_true_iff in H. destruct H as [H4 He].
  apply String.eqb_eq in He. split; [exact He|].
  destruct (Dates.decimal n) as [|a [|b [|c [|d [|]]]]]; try discriminate. eauto 6.
Qed.

(** For a datetime whose year has four digits, the slices [[:10]] and
    [[12:]] of the [strftime] text cut exactly around the comma and the
    blank: the result is the ISO text of the datetime, 19 characters long,
    and it is the text the string branch returns for any date string that
    parses to this datetime. *)
Theorem date_cleaner_iso (strptime : string -> option Dates.datetime)
    (d : Dates.datetime) :
  Dates.well_formed d ->
  1000 <= Z.of_nat (Dates.year d) ->
  Dates.date_cleaner strptime (inl d) = Some (Dates.isoformat d) /\
  String.length (Dates.isoformat d) = 19%nat /\
  (forall text, strptime text = Some d ->
     Dates.date_cleaner strptime (inr text) = Dates.date_cleaner strptime (inl d)).
Proof.
  intros (Hy & Hm & Hd & HH & HM & HS) Hy'.
  destruct (year_four (Dates.year d) ltac:(lia)) as (Ey & y1 & y2 & y3 & y4 & Ey').
  destruct (zfill_two (Dates.month d) ltac:(lia)) as (m1 & m2 & Em).
  destruct (zfill_two (Dates.day d) ltac:(lia)) as (d1 & d2 & Ed).
  destruct (zfill_two (Dates.hour d) ltac:(lia)) as (h1 & h2 & Eh).
  destruct (zfill_two (Dates.minute d) ltac:(lia)) as (n1 & n2 & En).
  destruct (zfill_two (Dates.second d) ltac:(lia)) as (s1 & s2 & Es).
  assert (E : Dates.date_cleaner strptime (inl d) = Some (Dates.isoformat d)).
  { unfold Dates.date_cleaner, Dates.isoformat, Dates.strftime.
    rewrite Ey, Ey', Em, Ed, Eh, En, Es. reflexivity. }
  split; [exact E|]. split.
  - unfold Dates.isoformat. rewrite Ey, Ey', Em, Ed, Eh, En, Es. reflexivity.
  - intros text Hp. rewrite E. unfold Dates.date_cleaner. rewrite Hp. reflexivity.
Qed.

(** Half past noon on the first of June 2021. *)
Lemma date_cleaner_iso_witness :
  let d := {| Dates.year := 2021; Dates.month := 6; Dates.day := 1;
              Dates.hour := 12; Dates.minute := 30; Dates.second := 0 |} in
  let strptime := fun text : string =>
    if String.eqb text "2021-06-01-12-30" then Some d else None in
  (Dates.well_formed d /\ 1000 <= Z.of_nat (Dates.year d)) /\
  Dates.date_cleaner strptime (inl d) = Some "2021-06-01T12:30:00"%string /\
  Dates.date_cleaner strptime (inr "2021-06-01-12-30"%string)
  = Some "2021-06-01T12:30:00"%string.
Proof.
  intros d strptime.
  assert (Hw : Dates.well_formed d) by (unfold Dates.well_formed; simpl; lia).
  assert (Hy : 1000 <= Z.of_nat (Dates.year d)) by (simpl; lia).
  split; [auto|].
  destruct (date_cleaner_iso strptime d Hw Hy) as (E & _ & Hs).
  split; [exact E|].
  rewrite (Hs "2021-06-01-12-30"%string eq_refl). exact E.
Defined.

(** With a year of three digits the same slices cut one place too far to
    the right. *)
Example date_cleaner_year_999 :
  Dates.date_cleaner (fun _ => None)
    (inl {| Dates.year := 999; Dates.month := 1; Dates.day := 2;
            Dates.hour := 3; Dates.minute := 4; Dates.second := 5 |})
  = Some "999-01-02,T3:04:05"%string.
Proof. reflexivity. Qed.

(** ** Properties of [Cryptocurrencies.find_crypto_pairs] *)

Section CatalogFacts.

Context {V : Type}.
Variable compile : string -> option (string -> bool).

Abbreviation find := (Cryptocurrencies.find_crypto_pairs (V := V) compile).
Abbreviation pid := (Cryptocurrencies.id (V := V)).

Lemma filter_idem {X : Type} (f : X -> bool) (l : list X) :
  filter f (filter f l) = filter f l.
Proof.
  induction l as [|x l IH]; simpl; [reflexivity|].
  destruct (f x) eqn:E; simpl; [rewrite E, IH|rewrite IH]; reflexivity.
Qed.

Lemma map_id_filter (found_in : string -> bool)
    (l : list (@Cryptocurrencies.product V)) :
  map pid (filter (fun p => found_in (pid p)) l) = filter found_in (map pid l).
Proof.
  induction l as [|p l IH]; simpl; [reflexivity|].
  destruct (found_in (pid p)); simpl; rewrite IH; reflexivity.
Qed.

Lemma frame_ids_reduced (rows : list (@Cryptocurrencies.product V)) :
  Cryptocurrencies.frame_ids (Cryptocurrencies.Condensed
                                (map Cryptocurrencies.reduced rows))
  = map pid rows.
Proof.
  simpl. rewrite map_map. reflexivity.
Qed.

(** The frame built from the non-empty selection [rows]. *)
Lemma frame_of_rows (self : Cryptocurrencies.t)
    (rows : list (@Cryptocurrencies.product V)) :
  rows <> [] ->
  exists fr,
    (if Cryptocurrencies.extended_output self then inr (Cryptocurrencies.Extended rows)
     else match rows with
          | [] => inl KeyError
          | _ :: _ => inr (Cryptocurrencies.Condensed (map Cryptocurrencies.reduced rows))
          end) = inr fr /\
    Cryptocurrencies.frame_ids fr = map pid rows.
Proof.
  intros Hne. destruct rows as [|p rows]; [congruence|].
  destruct (Cryptocurrencies.extended_output self); eexists; split; try reflexivity.
  apply (frame_ids_reduced (p :: rows)).
Qed.

(** On a success answer with a non-empty catalog: a search term that is no
    regular expression raises [re.error]; in every other case a frame is
    returned and it is never empty.  Its ids are the catalog ids in which
    the term is found, in catalog order, when a non-empty term is given and
    found in some id; otherwise, also when the term is found nowhere, they
    are all the ids of the catalog. *)
Theorem search_falls_back_to_catalog (self : Cryptocurrencies.t)
    (response : @Cryptocurrencies.response V) :
  success (Cryptocurrencies.status_code response) = true ->
  Cryptocurrencies.products response <> [] ->
  let all := map pid (Cryptocurrencies.products response) in
  match Cryptocurrencies.search_term self with
  | Some term =>
      match compile term with
      | None => find self response = inl ReError
      | Some found_in =>
          exists fr,
            find self response = inr fr /\
            Cryptocurrencies.frame_ids fr <> [] /\
            Cryptocurrencies.frame_ids fr
            = match filter found_in all with
              | [] => all
              | _ :: _ => filter found_in all
              end
      end
  | None =>
      exists fr,
        find self response = inr fr /\
        Cryptocurrencies.frame_ids fr <> [] /\
        Cryptocurrencies.frame_ids fr = all
  end.
Proof.
  intros Hok Hne all. unfold Cryptocurrencies.find_crypto_pairs. rewrite Hok.
  subst all.
  destruct (Cryptocurrencies.products response) as [|p ps] eqn:Ep; [congruence|].
  destruct (Cryptocurrencies.search_term self) as [term|].
  - destruct (compile term) as [found_in|]; [|reflexivity].
    rewrite <- map_id_filter.
    destruct (filter (fun p0 => found_in (pid p0)) (p :: ps)) as [|q qs] eqn:Ef.
    + destruct (frame_of_rows self (p :: ps) ltac:(discriminate)) as (fr & Hfr & Hids).
      exists fr. split; [exact Hfr|]. rewrite Hids. split; [discriminate|reflexivity].
    + destruct (frame_of_rows self (q :: qs) ltac:(discriminate)) as (fr & Hfr & Hids).
      exists fr. split; [exact Hfr|]. rewrite Hids. split; [discriminate|reflexivity].
  - destruct (frame_of_rows self (p :: ps) ltac:(discriminate)) as (fr & Hfr & Hids).
    exists fr. split; [exact Hfr|]. rewrite Hids. split; [discriminate|reflexivity].
Qed.

(** The extended flag decides the columns only: with the flag off the
    frame holds the five reduced columns of exactly the rows that the same
    object with the flag on returns. *)
Theorem extended_flag_keeps_rows (self : Cryptocurrencies.t)
    (response : @Cryptocurrencies.response V) (fr : @Cryptocurrencies.frame V) :
  Cryptocurrencies.extended_output self = false ->
  find self response = inr fr ->
  exists rows,
    find {| Cryptocurrencies.extended_output := true;
            Cryptocurrencies.coin_search := Cryptocurrencies.coin_search self;
            Cryptocurrencies.verbose := Cryptocurrencies.verbose self |} response
    = inr (Cryptocurrencies.Extended rows) /\
    fr = Cryptocurrencies.Condensed (map Cryptocurrencies.reduced rows) /\
    Cryptocurrencies.frame_ids fr = map pid rows.
Proof.
  intros Hext H.
  unfold Cryptocurrencies.find_crypto_pairs, Cryptocurrencies.search_term in *.
  simpl. rewrite Hext in H.
  destruct (success (Cryptocurrencies.status_code response)); [|discriminate].
  match type of H with
  | match ?s with inl _ => _ | inr _ => _ end = _ => destruct s as [e|rows]
  end; [discriminate|].
  destruct rows as [|p rows]; [discriminate|].
  inversion H; subst. exists (p :: rows).
  split; [reflexivity|]. split; [reflexivity|]. apply (frame_ids_reduced (p :: rows)).
Qed.

(** A success answer with an empty catalog: the frame without rows is
    returned only for the extended output without search term; a search
    term or the reduced output raises [KeyError]. *)
Theorem empty_catalog (self : Cryptocurrencies.t)
    (response : @Cryptocurrencies.response V) :
  success (Cryptocurrencies.status_code response) = true ->
  Cryptocurrencies.products response = [] ->
  find self response
  = match Cryptocurrencies.search_term self, Cryptocurrencies.extended_output self with
    | None, true => inr (Cryptocurrencies.Extended [])
    | _, _ => inl KeyError
    end.
Proof.
  intros Hok He. unfold Cryptocurrencies.find_crypto_pairs. rewrite Hok, He.
  destruct (Cryptocurrencies.search_term self);
    destruct (Cryptocurrencies.extended_output self); reflexivity.
Qed.

(** Searching once more changes nothing: the rows of an extended frame,
    handed back as the catalog of a success answer, are returned as they
    are by the same object. *)
Theorem search_idempotent (self : Cryptocurrencies.t)
    (response : @Cryptocurrencies.response V)
    (rows : list (@Cryptocurrencies.product V)) :
  find self response = inr (Cryptocurrencies.Extended rows) ->
  find self {| Cryptocurrencies.status_code := Cryptocurrencies.status_code response;
              Cryptocurrencies.products := rows |}
  = inr (Cryptocurrencies.Extended rows).
Proof.
  unfold Cryptocurrencies.find_crypto_pairs. simpl.
  destruct (success (Cryptocurrencies.status_code response)); [|discriminate].
  destruct (Cryptocurrencies.search_term self) as [term|].
  - destruct (Cryptocurrencies.products response) as [|p ps] eqn:Ep; [discriminate|].
    destruct (compile term) as [found_in|]; [|discriminate].
    destruct (filter (fun p0 => found_in (pid p0)) (p :: ps)) as [|q qs] eqn:Ef.
    + destruct (Cryptocurrencies.extended_output self); [|discriminate].
      intros H. inversion H; subst. rewrite Ef. reflexivity.
    + destruct (Cryptocurrencies.extended_output self); [|discriminate].
      intros H. inversion H; subst.
      rewrite <- Ef, filter_idem, Ef. reflexivity.
  - destruct (Cryptocurrencies.extended_output self).
    + intros H. inversion H; subst. reflexivity.
    + destruct (Cryptocurrencies.products response); discriminate.
Qed.

End CatalogFacts.

(** A search for DOGE finds two of three products; a search for XRP finds
    none and the whole catalog comes back; a search for ["*"] raises. *)
Lemma search_falls_back_to_catalog_witness :
  (success (Cryptocurrencies.status_code listing) = true /\
   Cryptocurrencies.products listing <> []) /\
  (exists fr,
     Cryptocurrencies.find_crypto_pairs compile_term (searching (Some "DOGE"%string) false)
       listing = inr fr /\
     Cryptocurrencies.frame_ids fr = ["DOGE-USD"; "DOGE-EUR"]%string) /\
  (exists fr,
     Cryptocurrencies.find_crypto_pairs compile_term (searching (Some "XRP"%string) false)
       listing = inr fr /\
     Cryptocurrencies.frame_ids fr = ["BTC-USD"; "DOGE-USD"; "DOGE-EUR"]%string) /\
  Cryptocurrencies.find_crypto_pairs compile_term (searching (Some "*"%string) false)
    listing = inl ReError.
Proof.
  assert (Hok : success (Cryptocurrencies.status_code listing) = true) by reflexivity.
  assert (Hne : Cryptocurrencies.products listing <> []) by discriminate.
  split; [auto|]. split; [|split].
  - destruct (search_falls_back_to_catalog compile_term (searching (Some "DOGE"%string) false)
                listing Hok Hne) as (fr & Hf & _ & Hids).
    exists fr. split; [exact Hf|]. exact Hids.
  - destruct (search_falls_back_to_catalog compile_term (searching (Some "XRP"%string) false)
                listing Hok Hne) as (fr & Hf & _ & Hids).
    exists fr. split; [exact Hf|]. exact Hids.
  - exact (search_falls_back_to_catalog compile_term (searching (Some "*"%string) false)
             listing Hok Hne).
Defined.

Lemma extended_flag_keeps_rows_witness :
  let self := searching (Some "DOGE"%string) false in
  let fr := Cryptocurrencies.Condensed
              (map Cryptocurrencies.reduced [coin "DOGE-USD"; coin "DOGE-EUR"]) in
  (Cryptocurrencies.extended_output self = false /\
   Cryptocurrencies.find_crypto_pairs compile_term self listing = inr fr) /\
  exists rows,
    Cryptocurrencies.find_crypto_pairs compile_term (searching (Some "DOGE"%string) true)
      listing = inr (Cryptocurrencies.Extended rows) /\
    fr = Cryptocurrencies.Condensed (map Cryptocurrencies.reduced rows) /\
    Cryptocurrencies.frame_ids fr = map Cryptocurrencies.id rows.
Proof.
  intros self fr.
  assert (Hext : Cryptocurrencies.extended_output self = false) by reflexivity.
  assert (Hf : Cryptocurrencies.find_crypto_pairs compile_term self listing = inr fr)
    by (vm_compute; reflexivity).
  split; [auto|].
  exact (extended_flag_keeps_rows compile_term self listing fr Hext Hf).
Defined.

Lemma empty_catalog_witness :
  let nothing := {| Cryptocurrencies.status_code := 200;
                    Cryptocurrencies.products := @nil (@Cryptocurrencies.product string) |} in
  (success (Cryptocurrencies.status_code nothing) = true /\
   Cryptocurrencies.products nothing = []) /\
  Cryptocurrencies.find_crypto_pairs compile_term (searching None true) nothing
  = inr (Cryptocurrencies.Extended []) /\
  Cryptocurrencies.find_crypto_pairs compile_term (searching None false) nothing
  = inl KeyError /\
  Cryptocurrencies.find_crypto_pairs compile_term (searching (Some "DOGE"%string) true) nothing
  = inl KeyError.
Proof.
  intros nothing.
  assert (Hok : success (Cryptocurrencies.status_code nothing) = true) by reflexivity.
  assert (He : Cryptocurrencies.products nothing = []) by reflexivity.
  split; [auto|].
  split; [|split].
  - exact (empty_catalog compile_term (searching None true) nothing Hok He).
  - exact (empty_catalog compile_term (searching None false) nothing Hok He).
  - exact (empty_catalog compile_term (searching (Some "DOGE"%string) true) nothing Hok He).
Defined.

Lemma search_idempotent_witness :
  let self := searching (Some "DOGE"%string) true in
  let rows := [coin "DOGE-USD"; coin "DOGE-EUR"] in
  Cryptocurrencies.find_crypto_pairs compile_term self listing
  = inr (Cryptocurrencies.Extended rows) /\
  Cryptocurrencies.find_crypto_pairs compile_term self
    {| Cryptocurrencies.status_code := 200; Cryptocurrencies.products := rows |}
  = inr (Cryptocurrencies.Extended rows).
Proof.
  intros self rows.
  assert (Hf : Cryptocurrencies.find_crypto_pairs compile_term self listing
               = inr (Cryptocurrencies.Extended rows)) by (vm_compute; reflexivity).
  split; [exact Hf|].
  exact (search_idempotent compile_term self listing rows Hf).
Defined.

(** ** Properties of [LiveCryptoData.return_data] *)

Lemma lookup_without (dropped key : string) (l : list (string * string)) :
  LiveCryptoData.lookup key
    (filter (fun kv => negb (String.eqb (fst kv) dropped)) l)
  = if String.eqb key dropped then None else LiveCryptoData.lookup key l.
Proof.
  induction l as [|[k v] l IH]; simpl.
  - destruct (String.eqb key dropped); reflexivity.
  - destruct (String.eqb_spec k dropped) as [->|Hk]; simpl.
    + rewrite IH. destruct (String.eqb_spec key dropped) as [->|Hn]; [reflexivity|].
      destruct (String.eqb_spec dropped key); [congruence|reflexivity].
    + rewrite IH. destruct (String.eqb_spec k key) as [->|_]; [|reflexivity].
      destruct (String.eqb_spec key dropped); [contradiction|reflexivity].
Qed.

Section LiveFacts.

Context {St : Type}.
Variable serve : St -> LiveCryptoData.request -> LiveCryptoData.response * St.
Variable to_datetime : string -> option Z.

Abbreviation return_data := (LiveCryptoData.return_data serve to_datetime).

(** [return_data] sends the catalog request and, exactly when the answer is
    a success that lists the ticker, the quote request for that ticker;
    nothing else is sent.  Without the quote request the result is the
    exception of the catalog status, the [KeyError] of a success answer
    whose catalog is empty, or the [ValueError] for a ticker missing from a
    catalog that has products. *)
Theorem quote_request_gated (self : LiveCryptoData.t) (w : @LiveCryptoData.world St) :
  let out := return_data self w in
  exists r0 s1,
    serve (LiveCryptoData.remote w) LiveCryptoData.GetProducts = (r0, s1) /\
    if success (LiveCryptoData.status_code r0)
       && (if in_dec string_dec (LiveCryptoData.ticker self) (LiveCryptoData.ids r0)
           then true else false)
    then exists r1,
           serve s1 (LiveCryptoData.GetTicker (LiveCryptoData.ticker self))
           = (r1, LiveCryptoData.remote (snd out)) /\
           LiveCryptoData.trace (snd out)
           = LiveCryptoData.trace w
             ++ [(LiveCryptoData.GetProducts, r0);
                 (LiveCryptoData.GetTicker (LiveCryptoData.ticker self), r1)]
    else LiveCryptoData.trace (snd out)
         = LiveCryptoData.trace w ++ [(LiveCryptoData.GetProducts, r0)] /\
         fst out
         = inl (LiveCryptoData.Raised
                  (if success (LiveCryptoData.status_code r0)
                   then match LiveCryptoData.ids r0 with
                        | [] => KeyError
                        | _ :: _ => ValueError TickerNotAvailable
                        end
                   else http_error (LiveCryptoData.status_code r0))).
Proof.
  intros out.
  assert (H : return_data self w = out) by reflexivity.
  clearbody out. destruct out as [res w']. simpl. revert H.
  unfold LiveCryptoData.return_data, LiveCryptoData.bind at 1,
    LiveCryptoData.ticker_checker, LiveCryptoData.bind at 1,
    LiveCryptoData.requests_get at 1.
  destruct (serve (LiveCryptoData.remote w) LiveCryptoData.GetProducts) as [r0 s1].
  exists r0, s1. split; [reflexivity|]. revert H.
  destruct (success (LiveCryptoData.status_code r0));
    [cbn [andb]; cbv beta iota zeta|simpl; intros H; inversion H; subst; auto].
  destruct (LiveCryptoData.ids r0) as [|i l];
    [simpl; intros H; inversion H; subst; auto|cbv beta iota zeta].
  destruct (in_dec string_dec (LiveCryptoData.ticker self) (i :: l));
    simpl; [|intros H; inversion H; subst; auto].
  unfold LiveCryptoData.bind, LiveCryptoData.requests_get. simpl.
  destruct (serve s1 (LiveCryptoData.GetTicker (LiveCryptoData.ticker self)))
    as [r1 s2].
  intros H. exists r1.
  assert (E : w' = {| LiveCryptoData.remote := s2;
                      LiveCryptoData.trace :=
                        (LiveCryptoData.trace w ++ [(LiveCryptoData.GetProducts, r0)])
                        ++ [(LiveCryptoData.GetTicker (LiveCryptoData.ticker self), r1)] |}).
  { destruct (success (LiveCryptoData.status_code r1)); [|inversion H; reflexivity].
    destruct (LiveCryptoData.lookup "time" (LiveCryptoData.fields r1)) as [text|];
      [|inversion H; reflexivity].
    destruct (to_datetime text); inversion H; reflexivity. }
  subst w'. simpl. rewrite <- app_assoc. auto.
Qed.

(** The frame [return_data] returns: its index is the parsed [time] field
    of the quote; [time] is no longer among its columns; every other field
    of the quote is a column with its value unchanged. *)
Theorem returned_frame_columns (self : LiveCryptoData.t)
    (w w' : @LiveCryptoData.world St) (fr : LiveCryptoData.frame) :
  return_data self w = (inr fr, w') ->
  exists r0 r1 text,
    LiveCryptoData.trace w'
    = LiveCryptoData.trace w
      ++ [(LiveCryptoData.GetProducts, r0);
          (LiveCryptoData.GetTicker (LiveCryptoData.ticker self), r1)] /\
    LiveCryptoData.lookup "time" (LiveCryptoData.fields r1) = Some text /\
    to_datetime text = Some (LiveCryptoData.index fr) /\
    LiveCryptoData.lookup "time" (LiveCryptoData.columns fr) = None /\
    (forall key, key <> "time"%string ->
       LiveCryptoData.lookup key (LiveCryptoData.columns fr)
       = LiveCryptoData.lookup key (LiveCryptoData.fields r1)).
Proof.
  unfold LiveCryptoData.return_data, LiveCryptoData.bind at 1,
    LiveCryptoData.ticker_checker, LiveCryptoData.bind at 1,
    LiveCryptoData.requests_get at 1.
  destruct (serve (LiveCryptoData.remote w) LiveCryptoData.GetProducts) as [r0 s1].
  destruct (success (LiveCryptoData.status_code r0));
    [cbv beta iota zeta|simpl; discriminate].
  destruct (LiveCryptoData.ids r0) as [|i l]; [simpl; discriminate|cbv beta iota zeta].
  destruct (in_dec string_dec (LiveCryptoData.ticker self) (i :: l));
    simpl; [|discriminate].
  unfold LiveCryptoData.bind, LiveCryptoData.requests_get. simpl.
  destruct (serve s1 (LiveCryptoData.GetTicker (LiveCryptoData.ticker self)))
    as [r1 s2].
  destruct (success (LiveCryptoData.status_code r1)); simpl; [|discriminate].
  destruct (LiveCryptoData.lookup "time" (LiveCryptoData.fields r1)) as [text|] eqn:El;
    simpl; [|discriminate].
  destruct (to_datetime text) as [instant|] eqn:Ep; simpl; [|discriminate].
  intros H. inversion H; subst. simpl.
  exists r0, r1, text. rewrite <- app_assoc. simpl.
  repeat split; auto.
  - rewrite lookup_without, String.eqb_refl. reflexivity.
  - intros key Hk. rewrite lookup_without.
    destruct (String.eqb_spec key "time"); [contradiction|reflexivity].
Qed.

End LiveFacts.

(** A quote for BTC-USD. *)
Lemma returned_frame_columns_witness :
  let api := live_scripted [live_catalog; live_quote] in
  let out := LiveCryptoData.return_data api parse_quote_time live_btc live_fresh in
  let fr := {| LiveCryptoData.index := 1622550600;
               LiveCryptoData.columns :=
                 [("trade_id", "7"); ("price", "36500.1");
                  ("bid", "36500.0"); ("ask", "36500.2")]%string |} in
  out = (inr fr, snd out) /\
  LiveCryptoData.lookup "time" (LiveCryptoData.columns fr) = None.
Proof.
  intros api out fr.
  assert (Hout : out = (inr fr, snd out)) by (vm_compute; reflexivity).
  split; [exact Hout|].
  destruct (returned_frame_columns api parse_quote_time live_btc live_fresh
              (snd out) fr Hout) as (_ & _ & _ & _ & _ & _ & H & _).
  exact H.
Defined.
